(** * rentahuman-py: request execution, retry policy and resource operations

    A shallow embedding of [src/rentahuman/client.py],
    [src/rentahuman/async_client.py] and [src/rentahuman/models.py].

    The two clients talk to the network through [requests] and [httpx]; what
    those libraries hand back (a response object or an exception, and what
    the response's [json()] yields) is the input of the model.  [time.sleep]
    and [asyncio.sleep] record the duration they are called with when they
    return, and raise where CPython's do. *)

From Stdlib Require Import List String Ascii ZArith Bool Lia.
From Stdlib Require Import DecimalString Uint63 PrimFloat Floats.
Import ListNotations.
Local Open Scope string_scope.
Local Open Scope Z_scope.

Set Implicit Arguments.

(** ** Python values *)

(** The values [json.loads] produces, which are also the values the clients
    put in query dictionaries and request bodies.  A [dict] keeps its keys in
    insertion order. *)
#[warnings="-register-all"]
Inductive json : Type :=
| JNull
| JBool (b : bool)
| JInt (z : Z)
| JFloat (f : float)
| JStr (s : string)
| JList (l : list json)
| JObj (kv : list (string * json)).

Definition pydict := list (string * json).

(** [d.get(k)] on the key-value pairs of a dict. *)
Fixpoint lookup (k : string) (d : pydict) : option json :=
  match d with
  | [] => None
  | (k', v) :: d' => if String.eqb k k' then Some v else lookup k d'
  end.

(** [d[k] = v]: overwrite in place, or append a new key. *)
Fixpoint setitem (k : string) (v : json) (d : pydict) : pydict :=
  match d with
  | [] => [(k, v)]
  | (k', v') :: d' =>
      if String.eqb k k' then (k, v) :: d' else (k', v') :: setitem k v d'
  end.

Definition keys (d : pydict) : list string := map fst d.

(** [sub in s] for Python strings. *)
Fixpoint contains (sub s : string) : bool :=
  String.prefix sub s ||
  match s with
  | EmptyString => false
  | String _ s' => contains sub s'
  end.

(** [s] is [before + sub + after] for some strings: what [sub in s] decides. *)
Definition occurs_in (sub s : string) : Prop :=
  exists before after, s = before ++ sub ++ after.

(** [str(n)] and [f"{n}"] for an [int]. *)
Definition str_of_int (n : Z) : string :=
  NilZero.string_of_int (Z.to_int n).

(** ** Exceptions *)

(** Built-in exception classes that can escape from the clients. *)
Inductive builtin_exception : Type :=
| ValueError
| AttributeError
| KeyError
| IndexError
| TypeError
| OverflowError
| ValidationError.  (* pydantic.ValidationError *)

(** [RentAHumanError(message, status_code)] and its subclass
    [RateLimitError(retry_after)] are the two classes of client.py.
    [TransportError msg] stands for an instance [e] of the transport's base
    class ([requests.RequestException] in the blocking client,
    [httpx.HTTPError] in the other) with [str(e) = msg]. *)
Inductive exception : Type :=
| RentAHumanError (message : json) (status_code : option Z)
| RateLimitError (retry_after : float)
| TransportError (msg : string)
| Builtin (e : builtin_exception).

(** The [status_code] attribute: [RateLimitError.__init__] passes 429. *)
Definition status_code_of (e : exception) : option Z :=
  match e with
  | RentAHumanError _ sc => sc
  | RateLimitError _ => Some 429
  | _ => None
  end.

Inductive py_result (A : Type) : Type :=
| Returns (a : A)
| Throws (e : exception).
Arguments Returns {A} a.
Arguments Throws {A} e.


(** ** What the clients take from CPython and pydantic

    [float_of_str s] is [float(s)] for a [str] ([None] when it raises
    [ValueError]), [repr_str s] is [repr(s)], and [coerce_float] and
    [coerce_int] are pydantic's validation of a value against a [float] and
    an [int] annotation ([None] when the value is refused).
    [asyncio_sleep_odd d] is what [await asyncio.sleep(d)] raises when [d] is
    NaN or plus infinity ([None] when it returns): on NaN it depends on the
    version and on the other timers of the event loop (CPython 3.11 returns
    at once when the sleep is the only timer, 3.13 raises [ValueError]); on
    plus infinity it does not complete, and a call that does not end has no
    outcome of its own here.  They are taken as given; the one fact used
    about them is that [float] reads the literal ["1.0"] as [1.0]. *)
Class Runtime : Type := {
  float_of_str : string -> option float;
  repr_str : string -> string;
  coerce_float : json -> option json;
  coerce_int : json -> option json;
  asyncio_sleep_odd : float -> option builtin_exception;
  (** [float("1.0") == 1.0] *)
  float_of_str_one : float_of_str "1.0" = Some 1%float
}.

(** [float(n)] for an [int]; exact below 2^53 and defined here below 2^63 in
    absolute value, far beyond any attempt number. *)
Definition float_of_int (n : Z) : float :=
  if n <? 0 then (- PrimFloat.of_uint63 (Uint63.of_Z (- n)))%float
  else PrimFloat.of_uint63 (Uint63.of_Z n).

(** ** Transport *)

(** The keyword arguments [_request] forwards to the transport. *)
Record kwargs : Type := {
  kw_params : option pydict;
  kw_json : option json;
  kw_timeout : option Z
}.

Record request : Type := {
  req_method : string;
  req_url : string;
  req_kwargs : kwargs
}.

(** A response object, by the attributes the clients read.  [reason] is
    [resp.reason] of requests and [resp.reason_phrase] of httpx;
    [resp_json] is what calling [resp.json()] does. *)
Record response : Type := {
  status_code : Z;
  headers : list (string * string);
  content : string;
  reason : option string;
  resp_json : py_result json
}.

Definition lower_ascii (c : ascii) : ascii :=
  let n := nat_of_ascii c in
  if (Nat.leb 65 n && Nat.leb n 90)%bool then ascii_of_nat (n + 32) else c.

Fixpoint lower (s : string) : string :=
  match s with
  | EmptyString => EmptyString
  | String c s' => String (lower_ascii c) (lower s')
  end.

(** [resp.headers.get(name)]: header names compare case-insensitively in
    both libraries. *)
Fixpoint headers_get (name : string) (hs : list (string * string)) : option string :=
  match hs with
  | [] => None
  | (k, v) :: hs' =>
      if String.eqb (lower k) (lower name) then Some v else headers_get name hs'
  end.

(** The world a call runs in: [net k] is what the transport does on the
    [k]-th request issued through it, [sent] the requests issued so far and
    [slept] the durations slept so far. *)
Record world : Type := {
  net : nat -> py_result response;
  sent : list request;
  slept : list float
}.

(** ** Computations: state passing with exceptions *)

Definition M (A : Type) : Type := world -> py_result A * world.

Definition ret {A} (a : A) : M A := fun w => (Returns a, w).

Definition raise {A} (e : exception) : M A := fun w => (Throws e, w).

Definition bind {A B} (m : M A) (k : A -> M B) : M B :=
  fun w =>
    match m w with
    | (Returns a, w') => k a w'
    | (Throws e, w') => (Throws e, w')
    end.

Definition lift {A} (r : py_result A) : M A := fun w => (r, w).

Declare Scope py_scope.
Delimit Scope py_scope with py.
Notation "x <- m ;; k" := (bind m (fun x => k))
  (at level 61, m at next level, right associativity) : py_scope.
Notation "m ;;; k" := (bind m (fun _ => k))
  (at level 61, right associativity) : py_scope.
Local Open Scope py_scope.

(** [try: body except Base as e: handler(str(e))], where [Base] is the
    transport's base exception class. *)
Definition try_except_transport {A} (body : M A) (handler : string -> M A) : M A :=
  fun w =>
    match body w with
    | (Throws (TransportError msg), w') => handler msg w'
    | r => r
    end.

Definition record_request (req : request) (w : world) : world :=
  {| net := net w; sent := (sent w ++ [req])%list; slept := slept w |}.

Definition record_sleep (d : float) (w : world) : world :=
  {| net := net w; sent := sent w; slept := (slept w ++ [d])%list |}.

(** [session.request(method, url, **kwargs)]: the next outcome of the
    transport; the request counts as issued whatever the outcome. *)
Definition send (req : request) : M response :=
  fun w => (net w (List.length (sent w)), record_request req w).

(** A sleep of [d] seconds that is taken and returns. *)
Definition pause (d : float) : M unit :=
  fun w => (Returns tt, record_sleep d w).

(** What [time.sleep(d)] raises, if anything: CPython converts [d] to its
    clock's unit and raises [ValueError] on NaN ("Invalid value NaN"),
    [OverflowError] on an infinite [d] ("timestamp too large to convert"),
    then [ValueError] on a negative one ("sleep length must be
    non-negative").  Finite durations beyond the range of the clock (some 292
    years) overflow as well; they are taken here like shorter ones, and the
    statements about [Retry-After] values keep to [clock_range]. *)
Definition time_sleep_check (d : float) : option builtin_exception :=
  if is_nan d then Some ValueError
  else if is_infinity d then Some OverflowError
  else if (d <? 0)%float then Some ValueError
  else None.

(** [time.sleep(d)]. *)
Definition time_sleep (d : float) : M unit :=
  match time_sleep_check d with
  | Some e => raise (Builtin e)
  | None => pause d
  end.

(** What [await asyncio.sleep(d)] raises, if anything: it returns at once
    when [d <= 0], which holds of every negative [d], minus infinity
    included, and after [d] seconds when [d] is positive and finite.  NaN and
    plus infinity are left to [asyncio_sleep_odd]. *)
Definition asyncio_sleep_check {RT : Runtime} (d : float) : option builtin_exception :=
  if (is_nan d || (is_infinity d && negb (d <? 0)%float))%bool
  then asyncio_sleep_odd d
  else None.

(** [await asyncio.sleep(d)]. *)
Definition asyncio_sleep {RT : Runtime} (d : float) : M unit :=
  match asyncio_sleep_check d with
  | Some e => raise (Builtin e)
  | None => pause d
  end.

(** A duration [time.sleep] does not refuse: a number, finite and not
    negative. *)
Definition finite_wait (d : float) : bool :=
  (negb (is_nan d) && negb (is_infinity d) && negb (d <? 0)%float)%bool.

(** A value of the IEEE format that is zero or positive and finite. *)
Definition plain (s : spec_float) : Prop :=
  match s with
  | S754_zero false | S754_finite false _ _ => True
  | _ => False
  end.

(** Seconds that fit the clock of [time.sleep], which counts nanoseconds in
    64 bits (2^63 ns is some 9.22e9 s). *)
Definition clock_range : float := 9e9.

(** A duration both sleeps take and return from: a number from 0 to
    [clock_range] seconds. *)
Definition sleepable (d : float) : bool :=
  (negb (is_nan d) && negb (d <? 0)%float && (d <=? clock_range)%float)%bool.

(** [range(a, b)]. *)
Definition range (a b : Z) : list Z :=
  map (fun i => a + Z.of_nat i) (seq 0 (Z.to_nat (b - a))).

(** [d.get(k, default)] on an arbitrary value: only a dict has [get]. *)
Definition dict_get (d : json) (k : string) (default : json) : py_result json :=
  match d with
  | JObj kv => Returns (match lookup k kv with Some v => v | None => default end)
  | _ => Throws (Builtin AttributeError)
  end.

Definition nonempty (s : string) : bool :=
  match s with EmptyString => false | _ => true end.

(** [reason or f"HTTP {code}"]. *)
Definition reason_or_default (r : option string) (code : Z) : string :=
  match r with
  | Some s => if nonempty s then s else "HTTP " ++ str_of_int code
  | None => "HTTP " ++ str_of_int code
  end.

(** The state both constructors store. *)
Record client : Type := {
  base_url : string;
  timeout : Z;
  max_retries : Z;
  default_headers : list (string * string)
}.

(** [s.rstrip("/")]. *)
Fixpoint rstrip_slash (s : string) : string :=
  match s with
  | EmptyString => EmptyString
  | String c s' =>
      match rstrip_slash s' with
      | EmptyString => if Ascii.eqb c "/" then EmptyString else String c EmptyString
      | r => String c r
      end
  end.

Definition BASE_URL : string := "https://rentahuman.ai/api".
Definition DEFAULT_TIMEOUT : Z := 30.

(** [__init__] of both clients. *)
Definition init (api_key : option string) (base : string) (tmo retries : Z) : client :=
  {| base_url := rstrip_slash base;
     timeout := tmo;
     max_retries := retries;
     default_headers :=
       ("Content-Type", "application/json") ::
       match api_key with
       | Some k => if nonempty k then [("X-API-Key", k)] else []
       | None => []
       end |}.

(** ** Entity models (models.py)

    Each class of models.py is a table of fields: the attribute name, the
    wire name ([alias=], the attribute name itself when none is given), the
    default ([None] for a required field) and the annotation, here as the
    validator pydantic derives from it.  [model_validate] and [model_dump]
    are pydantic's, in the part these tables use: a value is looked up under
    the alias, then under the attribute name when [populate_by_name] is set;
    unknown keys are ignored; a missing field takes its default; a dump lists
    every field in declaration order. *)

Record field : Type := {
  fname : string;
  falias : string;
  fdefault : option json;
  fvalidate : json -> option json;
  fdump : bool -> bool -> json -> json
}.

Record model : Type := {
  fields : list field;
  populate_by_name : bool
}.

(** An instance holds one value per field, under the attribute names. *)
Definition instance := pydict.

Definition find_input (pbn : bool) (f : field) (kv : pydict) : option json :=
  match lookup (falias f) kv with
  | Some x => Some x
  | None => if pbn then lookup (fname f) kv else None
  end.

Fixpoint validate_fields (pbn : bool) (kv : pydict) (fs : list field) : option instance :=
  match fs with
  | [] => Some []
  | f :: fs' =>
      let value :=
        match find_input pbn f kv with
        | Some x => fvalidate f x
        | None => fdefault f
        end in
      match value, validate_fields pbn kv fs' with
      | Some v, Some rest => Some ((fname f, v) :: rest)
      | _, _ => None
      end
  end.

(** [cls.model_validate(obj)]. *)
Definition model_validate (m : model) (obj : json) : py_result instance :=
  match obj with
  | JObj kv =>
      match validate_fields (populate_by_name m) kv (fields m) with
      | Some inst => Returns inst
      | None => Throws (Builtin ValidationError)
      end
  | _ => Throws (Builtin ValidationError)
  end.

Definition is_none (v : json) : bool :=
  match v with JNull => true | _ => false end.

Fixpoint dump_fields (by_alias exclude_none : bool) (inst : instance)
    (fs : list field) : pydict :=
  match fs with
  | [] => []
  | f :: fs' =>
      match lookup (fname f) inst with
      | Some v =>
          if (exclude_none && is_none v)%bool
          then dump_fields by_alias exclude_none inst fs'
          else ((if by_alias then falias f else fname f),
                fdump f by_alias exclude_none v)
               :: dump_fields by_alias exclude_none inst fs'
      | None => dump_fields by_alias exclude_none inst fs'
      end
  end.

(** [obj.model_dump(by_alias=..., exclude_none=...)]. *)
Definition model_dump (m : model) (by_alias exclude_none : bool)
    (inst : instance) : pydict :=
  dump_fields by_alias exclude_none inst (fields m).

(** Annotations. *)
Definition v_str (x : json) : option json :=
  match x with JStr _ => Some x | _ => None end.

Definition v_optional (v : json -> option json) (x : json) : option json :=
  match x with JNull => Some JNull | _ => v x end.

Fixpoint v_all (v : json -> option json) (l : list json) : option (list json) :=
  match l with
  | [] => Some []
  | x :: l' =>
      match v x, v_all v l' with
      | Some y, Some ys => Some (y :: ys)
      | _, _ => None
      end
  end.

Definition v_list (v : json -> option json) (x : json) : option json :=
  match x with
  | JList l => option_map JList (v_all v l)
  | _ => None
  end.

Definition v_model (m : model) (x : json) : option json :=
  match model_validate m x with
  | Returns inst => Some (JObj inst)
  | Throws _ => None
  end.

Definition dump_plain (by_alias exclude_none : bool) (v : json) : json := v.

Definition dump_models (m : model) (by_alias exclude_none : bool) (v : json) : json :=
  match v with
  | JList l =>
      JList (map (fun x =>
                    match x with
                    | JObj inst => JObj (model_dump m by_alias exclude_none inst)
                    | _ => x
                    end) l)
  | _ => v
  end.

(** [name: T = default] and [name: T = Field(default, alias=...)]. *)
Definition Field (name alias : string) (default : option json)
    (v : json -> option json) : field :=
  {| fname := name; falias := alias; fdefault := default;
     fvalidate := v; fdump := dump_plain |}.

Definition ModelsField (name alias : string) (m : model) : field :=
  {| fname := name; falias := alias; fdefault := Some (JList []);
     fvalidate := v_list (v_model m); fdump := dump_models m |}.

Section Models.
Context {RT : Runtime}.

Definition v_float : json -> option json := coerce_float.
Definition v_int : json -> option json := coerce_int.

Definition CryptoWallet : model :=
  {| fields :=
       [ Field "chain" "chain" (Some (JStr "")) v_str;
         Field "address" "address" (Some (JStr "")) v_str ];
     populate_by_name := false |}.

Definition Skill : model :=
  {| fields :=
       [ Field "name" "name" None v_str;
         Field "category" "category" (Some JNull) (v_optional v_str) ];
     populate_by_name := false |}.

Definition Human : model :=
  {| fields :=
       [ Field "id" "id" (Some (JStr "")) v_str;
         Field "name" "name" (Some (JStr "")) v_str;
         Field "location" "location" (Some JNull) (v_optional v_str);
         Field "rate" "rate" (Some JNull) (v_optional v_float);
         Field "skills" "skills" (Some (JList [])) (v_list v_str);
         Field "bio" "bio" (Some JNull) (v_optional v_str);
         Field "availability" "availability" (Some JNull) (v_optional v_str);
         ModelsField "crypto_wallets" "cryptoWallets" CryptoWallet;
         Field "rating" "rating" (Some JNull) (v_optional v_float);
         Field "completed_tasks" "completedTasks" (Some JNull) (v_optional v_int);
         Field "created_at" "createdAt" (Some JNull) (v_optional v_str) ];
     populate_by_name := true |}.

Definition BookingCreate : model :=
  {| fields :=
       [ Field "human_id" "humanId" None v_str;
         Field "agent_id" "agentId" (Some (JStr "rentahuman-py")) v_str;
         Field "task_title" "taskTitle" None v_str;
         Field "start_time" "startTime" None v_str;
         Field "estimated_hours" "estimatedHours" None v_float;
         Field "description" "description" (Some JNull) (v_optional v_str) ];
     populate_by_name := true |}.

Definition Booking : model :=
  {| fields :=
       [ Field "id" "id" (Some (JStr "")) v_str;
         Field "human_id" "humanId" (Some (JStr "")) v_str;
         Field "agent_id" "agentId" (Some (JStr "")) v_str;
         Field "task_title" "taskTitle" (Some (JStr "")) v_str;
         Field "status" "status" (Some (JStr "pending")) v_str;
         Field "start_time" "startTime" (Some JNull) (v_optional v_str);
         Field "estimated_hours" "estimatedHours" (Some JNull) (v_optional v_float);
         Field "created_at" "createdAt" (Some JNull) (v_optional v_str) ];
     populate_by_name := true |}.

Definition BountyCreate : model :=
  {| fields :=
       [ Field "agent_type" "agentType" (Some (JStr "rentahuman-py")) v_str;
         Field "title" "title" None v_str;
         Field "description" "description" None v_str;
         Field "estimated_hours" "estimatedHours" (Some JNull) (v_optional v_float);
         Field "price_type" "priceType" (Some (JStr "fixed")) v_str;
         Field "price" "price" (Some (JFloat 0)) v_float;
         Field "skills" "skills" (Some (JList [])) (v_list v_str);
         Field "location" "location" (Some JNull) (v_optional v_str) ];
     populate_by_name := true |}.

Definition BountyApplication : model :=
  {| fields :=
       [ Field "id" "id" (Some (JStr "")) v_str;
         Field "bounty_id" "bountyId" (Some (JStr "")) v_str;
         Field "human_id" "humanId" (Some (JStr "")) v_str;
         Field "human_name" "humanName" (Some (JStr "")) v_str;
         Field "message" "message" (Some (JStr "")) v_str;
         Field "rate" "rate" (Some JNull) (v_optional v_float);
         Field "status" "status" (Some (JStr "pending")) v_str;
         Field "created_at" "createdAt" (Some JNull) (v_optional v_str) ];
     populate_by_name := true |}.

Definition Bounty : model :=
  {| fields :=
       [ Field "id" "id" (Some (JStr "")) v_str;
         Field "title" "title" (Some (JStr "")) v_str;
         Field "description" "description" (Some (JStr "")) v_str;
         Field "agent_type" "agentType" (Some (JStr "")) v_str;
         Field "estimated_hours" "estimatedHours" (Some JNull) (v_optional v_float);
         Field "price_type" "priceType" (Some (JStr "fixed")) v_str;
         Field "price" "price" (Some (JFloat 0)) v_float;
         Field "status" "status" (Some (JStr "open")) v_str;
         Field "application_count" "applicationCount" (Some (JInt 0)) v_int;
         Field "created_at" "createdAt" (Some JNull) (v_optional v_str) ];
     populate_by_name := true |}.

Definition Message : model :=
  {| fields :=
       [ Field "id" "id" (Some (JStr "")) v_str;
         Field "conversation_id" "conversationId" (Some (JStr "")) v_str;
         Field "sender" "sender" (Some (JStr "")) v_str;
         Field "content" "content" (Some (JStr "")) v_str;
         Field "created_at" "createdAt" (Some JNull) (v_optional v_str) ];
     populate_by_name := true |}.

Definition Conversation : model :=
  {| fields :=
       [ Field "id" "id" (Some (JStr "")) v_str;
         Field "human_id" "humanId" (Some (JStr "")) v_str;
         Field "agent_type" "agentType" (Some (JStr "")) v_str;
         Field "subject" "subject" (Some (JStr "")) v_str;
         ModelsField "messages" "messages" Message;
         Field "created_at" "createdAt" (Some JNull) (v_optional v_str) ];
     populate_by_name := true |}.

(** Every class of models.py. *)
Definition all_models : list model :=
  [ CryptoWallet; Skill; Human; BookingCreate; Booking; BountyCreate;
    BountyApplication; Bounty; Message; Conversation ].

End Models.

(** ** The request executor *)

(** [float(s)] on a header value: a [ValueError] when [s] is no number. *)
Definition py_float {RT : Runtime} (s : string) : py_result float :=
  match float_of_str s with
  | Some d => Returns d
  | None => Throws (Builtin ValueError)
  end.

(** [_sanitize_path_param], the same static method in both classes. *)
Definition _sanitize_path_param {RT : Runtime} (value : string) : M string :=
  if (negb (nonempty value) || contains "/" value || contains "\" value
      || contains ".." value)%bool
  then raise (RentAHumanError (JStr ("Invalid path parameter: " ++ repr_str value)) None)
  else ret value.

(** The error that reports exhausted attempts after the loop. *)
Definition retries_exhausted (c : client) : exception :=
  RentAHumanError
    (JStr ("Request failed after " ++ str_of_int (max_retries c) ++ " retries")) None.

Module Client.
Section Executor.
Context {RT : Runtime}.

(** [float(resp.headers.get("Retry-After", 1.0))]. *)
Definition retry_after_of (resp : response) : py_result float :=
  match headers_get "Retry-After" (headers resp) with
  | Some s => py_float s
  | None => Returns 1%float
  end.

(** One pass through the body of the [for] loop of [_request]; [None]
    stands for [continue]. *)
Definition attempt_once (c : client) (req : request) (attempt : Z) : M (option json) :=
  try_except_transport
    (resp <- send req ;;
     if status_code resp =? 429 then
       retry_after <- lift (retry_after_of resp) ;;
       if attempt <? max_retries c
       then time_sleep retry_after ;;; ret None
       else raise (RateLimitError retry_after)
     else if status_code resp >=? 400 then
       body <- (if nonempty (content resp) then lift (resp_json resp)
                else ret (JObj [])) ;;
       error_msg <- lift (dict_get body "error"
                            (JStr (reason_or_default (reason resp) (status_code resp)))) ;;
       raise (RentAHumanError error_msg (Some (status_code resp)))
     else
       data <- lift (resp_json resp) ;;
       ret (Some data))
    (fun e =>
       if attempt <? max_retries c
       then time_sleep (0.5 * float_of_int (attempt + 1)) ;;; ret None
       else raise (RentAHumanError (JStr ("Request failed: " ++ e)) None)).

(** [for attempt in attempts: ...], then the [raise] after the loop. *)
Fixpoint request_loop (c : client) (req : request) (attempts : list Z) : M json :=
  match attempts with
  | [] => raise (retries_exhausted c)
  | attempt :: rest =>
      r <- attempt_once c req attempt ;;
      match r with
      | Some data => ret data
      | None => request_loop c req rest
      end
  end.

(** [kwargs.setdefault("timeout", self.timeout)]. *)
Definition with_timeout (c : client) (kw : kwargs) : kwargs :=
  {| kw_params := kw_params kw;
     kw_json := kw_json kw;
     kw_timeout := match kw_timeout kw with
                   | Some t => Some t
                   | None => Some (timeout c)
                   end |}.

Definition build_request (c : client) (method path : string) (kw : kwargs) : request :=
  {| req_method := method;
     req_url := base_url c ++ path;
     req_kwargs := with_timeout c kw |}.

Definition _request (c : client) (method path : string) (kw : kwargs) : M json :=
  request_loop c (build_request c method path kw) (range 0 (max_retries c + 1)).

End Executor.
End Client.

Module AsyncClient.
Section Executor.
Context {RT : Runtime}.

(** [float(resp.headers.get("Retry-After", "1.0"))]. *)
Definition retry_after_of (resp : response) : py_result float :=
  py_float match headers_get "Retry-After" (headers resp) with
           | Some s => s
           | None => "1.0"
           end.

Definition attempt_once (c : client) (req : request) (attempt : Z) : M (option json) :=
  try_except_transport
    (resp <- send req ;;
     if status_code resp =? 429 then
       retry_after <- lift (retry_after_of resp) ;;
       if attempt <? max_retries c
       then asyncio_sleep retry_after ;;; ret None
       else raise (RateLimitError retry_after)
     else if status_code resp >=? 400 then
       body <- (if nonempty (content resp) then lift (resp_json resp)
                else ret (JObj [])) ;;
       error_msg <- lift (dict_get body "error"
                            (JStr (reason_or_default (reason resp) (status_code resp)))) ;;
       raise (RentAHumanError error_msg (Some (status_code resp)))
     else
       data <- lift (resp_json resp) ;;
       ret (Some data))
    (fun e =>
       if attempt <? max_retries c
       then asyncio_sleep (0.5 * float_of_int (attempt + 1)) ;;; ret None
       else raise (RentAHumanError (JStr ("Request failed: " ++ e)) None)).

Fixpoint request_loop (c : client) (req : request) (attempts : list Z) : M json :=
  match attempts with
  | [] => raise (retries_exhausted c)
  | attempt :: rest =>
      r <- attempt_once c req attempt ;;
      match r with
      | Some data => ret data
      | None => request_loop c req rest
      end
  end.

(** The timeout lives in the [httpx.AsyncClient]; the keyword arguments are
    forwarded as they are. *)
Definition build_request (c : client) (method path : string) (kw : kwargs) : request :=
  {| req_method := method;
     req_url := base_url c ++ path;
     req_kwargs := kw |}.

Definition _request (c : client) (method path : string) (kw : kwargs) : M json :=
  request_loop c (build_request c method path kw) (range 0 (max_retries c + 1)).

End Executor.
End AsyncClient.

(** ** Resource operations

    The methods below appear twice in the source, once in each class, and
    differ only by [await]; they are written once over the class's
    [_request] and instantiated for both classes afterwards. *)

(** [bool(v)]. *)
Definition truthy (v : json) : bool :=
  match v with
  | JNull => false
  | JBool b => b
  | JInt z => negb (z =? 0)
  | JFloat f => negb (PrimFloat.eqb f 0)
  | JStr s => nonempty s
  | JList l => match l with [] => false | _ => true end
  | JObj kv => match kv with [] => false | _ => true end
  end.

(** [v[0]].  The keys of a decoded JSON object are strings, so [0] is never
    one of them. *)
Definition index0 (v : json) : py_result json :=
  match v with
  | JList (x :: _) => Returns x
  | JList [] => Throws (Builtin IndexError)
  | JStr (String ch _) => Returns (JStr (String ch EmptyString))
  | JStr EmptyString => Throws (Builtin IndexError)
  | JObj _ => Throws (Builtin KeyError)
  | _ => Throws (Builtin TypeError)
  end.

Definition isinstance_str (v : json) : bool :=
  match v with JStr _ => true | _ => false end.

Fixpoint chars (s : string) : list json :=
  match s with
  | EmptyString => []
  | String ch s' => JStr (String ch EmptyString) :: chars s'
  end.

(** [for x in v]. *)
Definition iterate (v : json) : py_result (list json) :=
  match v with
  | JList l => Returns l
  | JStr s => Returns (chars s)
  | JObj kv => Returns (map JStr (keys kv))
  | _ => Throws (Builtin TypeError)
  end.

(** [[cls.model_validate(x) for x in l]]. *)
Fixpoint validate_each (m : model) (l : list json) : py_result (list instance) :=
  match l with
  | [] => Returns []
  | x :: l' =>
      match model_validate m x with
      | Returns i =>
          match validate_each m l' with
          | Returns rest => Returns (i :: rest)
          | Throws e => Throws e
          end
      | Throws e => Throws e
      end
  end.

Definition truthy_str (s : option string) : bool :=
  match s with Some s => nonempty s | None => false end.

Module Operations.
Section Operations.
Context {RT : Runtime}.
Variable _request : client -> string -> string -> kwargs -> M json.

Definition _get (c : client) (path : string) (params : option pydict) : M json :=
  _request c "GET" path {| kw_params := params; kw_json := None; kw_timeout := None |}.

Definition _post (c : client) (path : string) (body : option json) : M json :=
  _request c "POST" path {| kw_params := None; kw_json := body; kw_timeout := None |}.

Definition _patch (c : client) (path : string) (body : option json) : M json :=
  _request c "PATCH" path {| kw_params := None; kw_json := body; kw_timeout := None |}.

(** [cls.model_validate(data.get(key, data))]. *)
Definition unwrap_entity (m : model) (key : string) (data : json) : M instance :=
  payload <- lift (dict_get data key data) ;;
  lift (model_validate m payload).

(** [[cls.model_validate(x) for x in data.get(key, [])]]. *)
Definition unwrap_list (m : model) (key : string) (data : json) : M (list instance) :=
  raw <- lift (dict_get data key (JList [])) ;;
  items <- lift (iterate raw) ;;
  lift (validate_each m items).

(** *** Humans *)

Definition search_params (skill : option string) (min_rate max_rate : option float)
    (name : option string) (limit offset : Z) : pydict :=
  let params := [("limit", JInt (Z.max 1 (Z.min limit 500)));
                 ("offset", JInt (Z.max 0 offset))] in
  let params :=
    match skill with
    | Some s => if nonempty s then setitem "skill" (JStr s) params else params
    | None => params
    end in
  let params :=
    match min_rate with
    | Some r => setitem "minRate" (JFloat r) params
    | None => params
    end in
  let params :=
    match max_rate with
    | Some r => setitem "maxRate" (JFloat r) params
    | None => params
    end in
  match name with
  | Some n => if nonempty n then setitem "name" (JStr n) params else params
  | None => params
  end.

Definition search_humans (c : client) (skill : option string)
    (min_rate max_rate : option float) (name : option string)
    (limit offset : Z) : M (list instance) :=
  data <- _get c "/humans"
            (Some (search_params skill min_rate max_rate name limit offset)) ;;
  unwrap_list Human "humans" data.

Definition get_human (c : client) (human_id : string) : M instance :=
  human_id <- _sanitize_path_param human_id ;;
  data <- _get c ("/humans/" ++ human_id) None ;;
  unwrap_entity Human "human" data.

Definition list_skills (c : client) : M (list instance) :=
  data <- _get c "/skills" None ;;
  raw <- lift (dict_get data "skills" data) ;;
  first_is_str <- (if truthy raw
                   then x <- lift (index0 raw) ;; ret (isinstance_str x)
                   else ret false) ;;
  items <- lift (iterate raw) ;;
  if first_is_str
  then lift (validate_each Skill (map (fun s => JObj [("name", s)]) items))
  else lift (validate_each Skill items).

Definition get_reviews (c : client) (human_id : string) : M json :=
  human_id <- _sanitize_path_param human_id ;;
  data <- _get c ("/humans/" ++ human_id ++ "/reviews") None ;;
  lift (dict_get data "reviews" (JList [])).

(** *** Bookings *)

Definition create_booking (c : client) (booking : instance) : M instance :=
  data <- _post c "/bookings" (Some (JObj (model_dump BookingCreate true true booking))) ;;
  unwrap_entity Booking "booking" data.

Definition get_booking (c : client) (booking_id : string) : M instance :=
  booking_id <- _sanitize_path_param booking_id ;;
  data <- _get c ("/bookings/" ++ booking_id) None ;;
  unwrap_entity Booking "booking" data.

Definition bookings_params (human_id agent_id status : option string) (limit : Z) : pydict :=
  let params := [("limit", JInt limit)] in
  let params :=
    match human_id with
    | Some h => if nonempty h then setitem "humanId" (JStr h) params else params
    | None => params
    end in
  let params :=
    match agent_id with
    | Some a => if nonempty a then setitem "agentId" (JStr a) params else params
    | None => params
    end in
  match status with
  | Some s => if nonempty s then setitem "status" (JStr s) params else params
  | None => params
  end.

Definition list_bookings (c : client) (human_id agent_id status : option string)
    (limit : Z) : M (list instance) :=
  data <- _get c "/bookings" (Some (bookings_params human_id agent_id status limit)) ;;
  unwrap_list Booking "bookings" data.

(** *** Bounties *)

Definition create_bounty (c : client) (bounty : instance) : M instance :=
  data <- _post c "/bounties" (Some (JObj (model_dump BountyCreate true true bounty))) ;;
  unwrap_entity Bounty "bounty" data.

Definition get_bounty (c : client) (bounty_id : string) : M instance :=
  bounty_id <- _sanitize_path_param bounty_id ;;
  data <- _get c ("/bounties/" ++ bounty_id) None ;;
  unwrap_entity Bounty "bounty" data.

Definition list_bounties (c : client) (limit : Z) : M (list instance) :=
  data <- _get c "/bounties" (Some [("limit", JInt limit)]) ;;
  unwrap_list Bounty "bounties" data.

Definition get_bounty_applications (c : client) (bounty_id : string) : M (list instance) :=
  bounty_id <- _sanitize_path_param bounty_id ;;
  data <- _get c ("/bounties/" ++ bounty_id ++ "/applications") None ;;
  unwrap_list BountyApplication "applications" data.

Definition accept_application (c : client) (bounty_id application_id : string) : M json :=
  bounty_id <- _sanitize_path_param bounty_id ;;
  application_id <- _sanitize_path_param application_id ;;
  _post c ("/bounties/" ++ bounty_id ++ "/applications/" ++ application_id ++ "/accept")
    None.

Definition update_bounty (c : client) (bounty_id : string) (updates : pydict) : M instance :=
  bounty_id <- _sanitize_path_param bounty_id ;;
  data <- _patch c ("/bounties/" ++ bounty_id) (Some (JObj updates)) ;;
  unwrap_entity Bounty "bounty" data.

(** *** Conversations *)

Definition start_conversation (c : client) (human_id subject message agent_type : string)
    : M instance :=
  let payload := [("humanId", JStr human_id);
                  ("agentType", JStr agent_type);
                  ("subject", JStr subject);
                  ("message", JStr message)] in
  data <- _post c "/conversations" (Some (JObj payload)) ;;
  unwrap_entity Conversation "conversation" data.

Definition send_message (c : client) (conversation_id message : string) : M instance :=
  conversation_id <- _sanitize_path_param conversation_id ;;
  data <- _post c ("/conversations/" ++ conversation_id ++ "/messages")
            (Some (JObj [("message", JStr message)])) ;;
  unwrap_entity Message "message" data.

Definition get_conversation (c : client) (conversation_id : string) : M instance :=
  conversation_id <- _sanitize_path_param conversation_id ;;
  data <- _get c ("/conversations/" ++ conversation_id) None ;;
  unwrap_entity Conversation "conversation" data.

Definition list_conversations (c : client) (limit : Z) : M (list instance) :=
  data <- _get c "/conversations" (Some [("limit", JInt limit)]) ;;
  unwrap_list Conversation "conversations" data.

End Operations.
End Operations.

(** ** Vocabulary of the statements *)

(** The number of requests issued between two worlds. *)
Definition issued (before after : world) : nat :=
  List.length (sent after) - List.length (sent before).

(** The requests issued between two worlds. *)
Definition new_requests (before after : world) : list request :=
  skipn (List.length (sent before)) (sent after).

(** A path parameter the sanitizer must refuse: empty, or with a [/], a
    backslash or [..] in it. *)
Definition unsafe_path_param (value : string) : Prop :=
  value = "" \/ occurs_in "/" value \/ occurs_in "\" value \/ occurs_in ".." value.

(** The validation error of the clients: [RentAHumanError] with the text
    [Invalid path parameter: <repr>] and no status code. *)
Definition invalid_path_param {RT : Runtime} (value : string) : exception :=
  RentAHumanError (JStr ("Invalid path parameter: " ++ repr_str value)) None.

(** A call that is refused for [value] in world [w]: it raises the
    validation error and leaves the world as it was, no request issued. *)
Definition refused {RT : Runtime} {A : Type} (value : string) (w : world)
    (out : py_result A * world) : Prop :=
  out = (Throws (invalid_path_param value), w).

(** The clamping of [limit] in the words of the specification. *)
Definition clamped (limit : Z) : Z :=
  if 500 <? limit then 500 else if limit <? 1 then 1 else limit.

(** The request carries [limit=v] in its query. *)
Definition carries_limit (v : Z) (r : request) : Prop :=
  exists params,
    kw_params (req_kwargs r) = Some params /\
    lookup "limit" params = Some (JInt v).


(** The [Skill] with the given name and category. *)
Definition skill_of (name : string) (category : option string) : instance :=
  [("name", JStr name);
   ("category", match category with Some cat => JStr cat | None => JNull end)].


(** The keyword arguments of [_get(path)], [_post(path, json=body)] and
    [_patch(path, json=body)]. *)
Definition no_params : kwargs :=
  {| kw_params := None; kw_json := None; kw_timeout := None |}.


(** The attribute name of the field whose wire name is [k], and [k] itself
    when the model has no such field. *)
Definition internal_name (m : model) (k : string) : string :=
  match find (fun f => String.eqb (falias f) k) (fields m) with
  | Some f => fname f
  | None => k
  end.

(** A wire payload re-keyed by the attribute names. *)
Definition to_internal (m : model) (wire : pydict) : pydict :=
  map (fun kv => (internal_name m (fst kv), snd kv)) wire.

(** The round trip of the specification: construct the entity from the
    payload under the internal names, then serialize it under the external
    names ([model_dump(by_alias=True)], with or without [exclude_none]). *)
Definition round_trip (m : model) (exclude_none : bool) (wire : pydict)
    : py_result pydict :=
  match model_validate m (JObj (to_internal m wire)) with
  | Returns inst => Returns (model_dump m true exclude_none inst)
  | Throws e => Throws e
  end.

(** [l] has no repeated string. *)
Fixpoint distinct (l : list string) : bool :=
  match l with
  | [] => true
  | x :: l' => negb (existsb (String.eqb x) l') && distinct l'
  end.

(** Two worlds in which a call has run the same course so far: the same
    transport, as many requests issued, the same sleeps. *)
Definition same_course (w1 w2 : world) : Prop :=
  net w1 = net w2 /\
  List.length (sent w1) = List.length (sent w2) /\
  slept w1 = slept w2.

(** A transport-level failure with text [msg]: the transport call raises
    (connection error, timeout), or the response it returns cannot be
    decoded and [json()] raises from the transport's own exception class
    (malformed response). *)
Inductive transport_failure : py_result response -> string -> Prop :=
| failure_of_call msg :
    transport_failure (Throws (TransportError msg)) msg
| failure_of_body resp msg :
    status_code resp <> 429 ->
    status_code resp < 400 \/ content resp <> "" ->
    resp_json resp = Throws (TransportError msg) ->
    transport_failure (Returns resp) msg.

(** The [Retry-After] header read as seconds: its value as a float, or 1.0
    when the response has no such header. *)
Definition retry_after_seconds {RT : Runtime} (resp : response) (d : float) : Prop :=
  match headers_get "Retry-After" (headers resp) with
  | Some s => float_of_str s = Some d
  | None => d = 1%float
  end.


(** The [k]-th outcome of the transport is a 429 whose wait [time.sleep]
    refuses with [e]. *)
Definition refused_wait {RT : Runtime} (w : world) (k : nat)
    (e : builtin_exception) : Prop :=
  exists resp d,
    net w k = Returns resp /\ status_code resp = 429 /\
    retry_after_seconds resp d /\ time_sleep_check d = Some e.


(** What an attempt leaves behind: one more request, and one more sleep
    exactly when it asks for another attempt, which it only does below
    [max_retries]. *)
Definition attempt_effect (c : client) (req : request) (attempt : Z)
    (w : world) (out : py_result (option json) * world) : Prop :=
  net (snd out) = net w /\
  sent (snd out) = (sent w ++ [req])%list /\
  match fst out with
  | Returns None =>
      attempt < max_retries c /\ exists d, slept (snd out) = (slept w ++ [d])%list
  | _ => slept (snd out) = slept w
  end.

(** What a run of the loop over [n] attempts leaves behind: between one and
    [n] copies of the request (none when [n] is 0), and no more sleeps than
    requests. *)
Definition loop_effect (req : request) (n : nat) (w : world)
    (out : py_result json * world) : Prop :=
  net (snd out) = net w /\
  exists k ds,
    sent (snd out) = (sent w ++ repeat req k)%list /\
    (k <= n)%nat /\ (0 < n -> 0 < k)%nat /\
    slept (snd out) = (slept w ++ ds)%list /\
    (List.length ds <= k)%nat.

(** ** A runtime to run the model on

    A small stand-in for CPython and pydantic, for the concrete runs below:
    [float] of a plain decimal literal of at most fifteen digits (the
    quotient of two exactly represented numbers, hence correctly rounded as
    in CPython) and a refusal of anything else; [repr] of a string without
    quotes, backslashes or control characters; a [float] field that takes a
    float or an int and an [int] field that takes an int; an [asyncio.sleep]
    that raises [ValueError] on NaN, as CPython 3.13 does (no run below
    sleeps NaN or plus infinity). *)
Module Sample.

Definition digit (ch : ascii) : option Z :=
  let n := Z.of_nat (nat_of_ascii ch) in
  if (48 <=? n) && (n <=? 57) then Some (n - 48) else None.

(** Digits of [s] up to the first character that is none: their value on
    top of [acc], their number, and the remainder of [s]. *)
Fixpoint digits (s : string) (acc : Z) (count : nat) : Z * nat * string :=
  match s with
  | EmptyString => (acc, count, s)
  | String ch s' =>
      match digit ch with
      | Some d => digits s' (10 * acc + d) (S count)
      | None => (acc, count, s)
      end
  end.

Definition unsigned_decimal (s : string) : option float :=
  let '(int_part, n_int, rest) := digits s 0 0 in
  match rest with
  | EmptyString =>
      if (Nat.ltb 0 n_int && Nat.leb n_int 15)%bool
      then Some (float_of_int int_part) else None
  | String "." frac =>
      let '(mantissa, n_all, rest') := digits frac int_part n_int in
      match rest' with
      | EmptyString =>
          if (Nat.ltb 0 n_all && Nat.leb n_all 15)%bool
          then Some (float_of_int mantissa
                     / float_of_int (10 ^ Z.of_nat (n_all - n_int)))%float
          else None
      | _ => None
      end
  | _ => None
  end.

Definition parse_float (s : string) : option float :=
  match s with
  | String "-" s' => option_map PrimFloat.opp (unsigned_decimal s')
  | String "+" s' => unsigned_decimal s'
  | _ => unsigned_decimal s
  end.

Definition quote (s : string) : string := "'" ++ s ++ "'".

Definition to_float (v : json) : option json :=
  match v with
  | JFloat f => Some (JFloat f)
  | JInt z => Some (JFloat (float_of_int z))
  | _ => None
  end.

Definition to_int (v : json) : option json :=
  match v with
  | JInt z => Some (JInt z)
  | _ => None
  end.

Definition runtime : Runtime :=
  {| float_of_str := parse_float;
     repr_str := quote;
     coerce_float := to_float;
     coerce_int := to_int;
     asyncio_sleep_odd := fun _ => Some ValueError;
     float_of_str_one := eq_refl |}.

(** A world that has issued no request yet. *)
Definition fresh (outcomes : nat -> py_result response) : world :=
  {| net := outcomes; sent := []; slept := [] |}.

(** The transport answering with the listed outcomes in turn, then with a
    connection error. *)
Definition script (outcomes : list (py_result response)) (k : nat)
    : py_result response :=
  nth k outcomes (Throws (TransportError "Connection refused")).

Definition ok (body : json) : py_result response :=
  Returns {| status_code := 200; headers := []; content := "{...}";
             reason := Some "OK"; resp_json := Returns body |}.

Definition too_many (hs : list (string * string)) : py_result response :=
  Returns {| status_code := 429; headers := hs; content := "";
             reason := Some "Too Many Requests";
             resp_json := Throws (TransportError "Expecting value") |}.

Definition default_client : client := init None BASE_URL DEFAULT_TIMEOUT 3.

(** [RentAHumanClient(api_key="rah_test_key", max_retries=0)]. *)
Definition impatient_client : client :=
  init (Some "rah_test_key") BASE_URL DEFAULT_TIMEOUT 0.

(** The request [search_humans()] makes through the blocking class. *)
Definition search_request : request :=
  Client.build_request default_client "GET" "/humans"
    {| kw_params := Some [("limit", JInt 20); ("offset", JInt 0)];
       kw_json := None; kw_timeout := None |}.

Definition not_found : response :=
  {| status_code := 404; headers := []; content := "{...}";
     reason := Some "Not Found";
     resp_json := Returns (JObj [("success", JBool false);
                                 ("error", JStr "Human not found")]) |}.

Definition rate_limited (retry_after : string) : response :=
  {| status_code := 429; headers := [("Retry-After", retry_after)];
     content := ""; reason := Some "Too Many Requests";
     resp_json := Throws (TransportError "Expecting value") |}.

Definition humans_body : json :=
  JObj [("success", JBool true); ("humans", JList []); ("count", JInt 0)].

(** A 429 asking for 0.01 s, then a 200. *)
Definition busy_then_ok : world :=
  fresh (script [Returns (rate_limited "0.01"); ok humans_body]).


(** A payload with two of the eight fields of [Booking]. *)
Definition partial_booking : pydict :=
  [("id", JStr "booking_001"); ("status", JStr "pending")].

End Sample.


(** ** Vocabulary of the further properties *)

(** The outcome of attempt number [attempt] that makes the loop sleep [d]
    seconds and try again, provided attempts are left: a 429 whose
    [Retry-After] reads as [d], a number from 0 to [clock_range], or a
    transport failure, for which [d] is the linear backoff. *)
Inductive asks_again {RT : Runtime} (attempt : Z) : py_result response -> float -> Prop :=
| again_rate_limited resp d :
    status_code resp = 429 ->
    retry_after_seconds resp d ->
    sleepable d = true ->
    asks_again attempt (Returns resp) d
| again_failure outcome msg :
    transport_failure outcome msg ->
    asks_again attempt outcome (0.5 * float_of_int (attempt + 1)).

(** The world after [k] more copies of [req] and the sleeps [ds]. *)
Definition after_retries (req : request) (k : nat) (ds : list float) (w : world) : world :=
  {| net := net w;
     sent := (sent w ++ repeat req k)%list;
     slept := (slept w ++ ds)%list |}.

(** The [i]-th outcome of the transport counted from world [w]. *)
Definition upcoming (w : world) (i : nat) : py_result response :=
  net w (List.length (sent w) + i).


(** An exception the [except] clause of [_request] does not catch. *)
Definition uncaught (e : exception) : Prop :=
  match e with TransportError _ => False | _ => True end.

(** An attempt from which an uncaught exception [e] escapes: the transport
    call raises it, or [json()] does where [_request] calls it. *)
Inductive escapes : py_result response -> exception -> Prop :=
| escapes_call e :
    uncaught e -> escapes (Throws e) e
| escapes_body resp e :
    status_code resp <> 429 ->
    status_code resp < 400 \/ content resp <> "" ->
    resp_json resp = Throws e ->
    uncaught e ->
    escapes (Returns resp) e.

(** The exceptions [requests], [httpx] and the interpreter raise: never one
    of the two classes of client.py. *)
Definition library_exception (e : exception) : Prop :=
  match e with
  | TransportError _ | Builtin _ => True
  | RentAHumanError _ _ | RateLimitError _ => False
  end.

(** A transport that raises library exceptions only, from the call as from
    [json()]. *)
Definition library_transport (w : world) : Prop :=
  forall k,
    match net w k with
    | Throws e => library_exception e
    | Returns resp =>
        match resp_json resp with
        | Throws e => library_exception e
        | Returns _ => True
        end
    end.

(** What the transport did on the last request issued so far. *)
Definition last_outcome (w : world) : py_result response :=
  net w (Nat.pred (List.length (sent w))).

(** [k] slashes. *)
Fixpoint slashes (k : nat) : string :=
  match k with
  | O => EmptyString
  | S k' => String "/" (slashes k')
  end.

(** [s[-1]], when [s] is not empty. *)
Fixpoint last_char (s : string) : option ascii :=
  match s with
  | EmptyString => None
  | String ch EmptyString => Some ch
  | String _ s' => last_char s'
  end.

(** The query of the request is exactly [params]. *)
Definition has_query (params : pydict) (r : request) : Prop :=
  kw_params (req_kwargs r) = Some params.

(** The entry a filter adds to a query: none when the filter is [None]. *)
Definition optional_param (key : string) (value : option json) : pydict :=
  match value with
  | Some v => [(key, v)]
  | None => []
  end.

(** A string filter as [if s:] sees it: given when it is neither [None] nor
    empty. *)
Definition given_str (s : option string) : option json :=
  match s with
  | Some (String ch rest) => Some (JStr (String ch rest))
  | _ => None
  end.

(** The JSON body of the request is the object [body]. *)
Definition has_json_body (body : pydict) (r : request) : Prop :=
  kw_json (req_kwargs r) = Some (JObj body).

(** The keyword arguments of [_get(path, params=params)]. *)
Definition query (params : pydict) : kwargs :=
  {| kw_params := Some params; kw_json := None; kw_timeout := None |}.

(** A list comprehension over [items] that validates each element against
    [m] ends in [out]: a list is returned exactly when it holds the
    validated elements, one per item and in the order of [items]; and when
    some item is refused the whole comprehension raises. *)
Definition validates_in_order (m : model) (items : list json)
    (out : py_result (list instance)) : Prop :=
  (forall l,
      out = Returns l <->
      Forall2 (fun x i => model_validate m x = Returns i) items l) /\
  (Exists (fun x => exists e, model_validate m x = Throws e) items ->
   out = Throws (Builtin ValidationError)).

(** The request carries a JSON object that has no [null] among its values
    and no key outside [wire_names]. *)
Definition sends_object_without_null (wire_names : list string) (r : request) : Prop :=
  exists body,
    has_json_body body r /\
    Forall (fun kv => snd kv <> JNull) body /\
    incl (keys body) wire_names.

(** [k] is a key [model_validate] reads for some field of [m]: a wire name,
    or an attribute name when [populate_by_name] is set. *)
Definition known_key (m : model) (k : string) : bool :=
  existsb (fun f => String.eqb (falias f) k
                    || (populate_by_name m && String.eqb (fname f) k))%bool
    (fields m).

(** The payload without the keys no field of [m] reads. *)
Definition known_part (m : model) (payload : pydict) : pydict :=
  filter (fun kv => known_key m (fst kv)) payload.

(** The name table of [m] can be read in both directions: for the wire name
    [k] of a field [g] and any field [f], [k] is renamed to the attribute
    name of [f] exactly when it is the wire name of [f]; [k] is renamed to
    the wire name of [f], or is the attribute name of [f], only when [f] has
    no alias of its own; and a field with an alias can be populated by
    name. *)
Definition names_agree (m : model) (g f : field) : bool :=
  let k := falias g in
  (Bool.eqb (String.eqb (internal_name m k) (fname f)) (String.eqb k (falias f))
   && implb (String.eqb (internal_name m k) (falias f))
        (String.eqb k (falias f) && String.eqb (fname f) (falias f))
   && implb (String.eqb k (fname f)) (String.eqb (fname f) (falias f))
   && (populate_by_name m || String.eqb (fname f) (falias f)))%bool.

Definition table_consistent (m : model) : bool :=
  forallb (fun g => forallb (names_agree m g) (fields m)) (fields m).

(** The instance in which every field of [m] has its default. *)
Definition defaults (m : model) : instance :=
  map (fun f => (fname f, match fdefault f with Some d => d | None => JNull end))
    (fields m).

(** ** [Human.summary] (models.py)

    The attributes of a [Human] that [summary] reads, with the types of
    their annotations. *)
Record human_attrs : Type := {
  h_id : string;
  h_name : string;
  h_location : option string;
  h_rate : option float;
  h_skills : list string;
  h_rating : option float
}.

(** [if x:] for an optional float: neither [None] nor zero. *)
Definition truthy_float (x : option float) : bool :=
  match x with
  | Some f => negb (PrimFloat.eqb f 0)
  | None => false
  end.

Section Summary.
(** [f"{x}"] and [f"{x:.1f}"] for a float, CPython's. *)
Variable format_float : float -> string.
Variable format_1f : float -> string.

Definition summary (self : human_attrs) : string :=
  let parts := [h_name self ++ " (" ++ h_id self ++ ")"] in
  let parts :=
    match h_location self with
    | Some location =>
        if nonempty location
        then (parts ++ [("in " ++ location)%string])%list else parts
    | None => parts
    end in
  let parts :=
    match h_rate self with
    | Some rate =>
        if truthy_float (Some rate)
        then (parts ++ [("$" ++ format_float rate ++ "/hr")%string])%list
        else parts
    | None => parts
    end in
  let parts :=
    match h_skills self with
    | [] => parts
    | skills =>
        (parts ++
         [("skills: " ++ String.concat ", " (firstn 5 skills))%string])%list
    end in
  let parts :=
    match h_rating self with
    | Some rating =>
        if truthy_float (Some rating)
        then (parts ++ [("rating: " ++ format_1f rating)%string])%list
        else parts
    | None => parts
    end in
  String.concat " | " parts.

End Summary.

(** [self] with other skills. *)
Definition with_skills (self : human_attrs) (skills : list string) : human_attrs :=
  {| h_id := h_id self; h_name := h_name self; h_location := h_location self;
     h_rate := h_rate self; h_skills := skills; h_rating := h_rating self |}.

(** Nothing of [self] but the name and the id would show in a summary: no
    location or an empty one, no rate or a zero one, no skill, no rating or
    a zero one. *)
Definition bare (self : human_attrs) : Prop :=
  truthy_str (h_location self) = false /\
  truthy_float (h_rate self) = false /\
  h_skills self = [] /\
  truthy_float (h_rating self) = false.

(** Every request issued between [w] and the end of [out] is a [GET] of
    [base_url + path] without a JSON body. *)
Definition only_gets {A : Type} (c : client) (path : string) (w : world)
    (out : py_result A * world) : Prop :=
  Forall (fun r => req_method r = "GET" /\
                   req_url r = (base_url c ++ path)%string /\
                   kw_json (req_kwargs r) = None)
    (new_requests w (snd out)).

(** Every request issued between [w] and the end of [out] is [method] on
    [base_url + path], without a query and with the JSON body [body]. *)
Definition only_sends {A : Type} (c : client) (method path : string)
    (body : option json) (w : world) (out : py_result A * world) : Prop :=
  Forall (fun r => req_method r = method /\
                   req_url r = (base_url c ++ path)%string /\
                   kw_params (req_kwargs r) = None /\
                   kw_json (req_kwargs r) = body)
    (new_requests w (snd out)).

(** As [only_sends], and with a retry count of 0 or more at least one
    request is issued. *)
Definition sends {A : Type} (c : client) (method path : string)
    (body : option json) (w : world) (out : py_result A * world) : Prop :=
  only_sends c method path body w out /\
  (0 <= max_retries c -> new_requests w (snd out) <> []).

(** ** Further sample values *)

Module Scenarios.

Definition ok_response (body : json) : response :=
  {| status_code := 200; headers := []; content := "{...}";
     reason := Some "OK"; resp_json := Returns body |}.

(** A 200 whose body is no JSON: [json()] raises [ValueError], as httpx
    does. *)
Definition garbled : response :=
  {| status_code := 200; headers := []; content := "<html>";
     reason := Some "OK"; resp_json := Throws (Builtin ValueError) |}.

(** A 429 without a [Retry-After] header. *)
Definition unspecified_wait : response :=
  {| status_code := 429; headers := []; content := "";
     reason := Some "Too Many Requests";
     resp_json := Throws (TransportError "Expecting value") |}.

(** Four attempts that all ask for another one, the last by a 429 with
    [Retry-After: 2]. *)
Definition always_busy : world :=
  Sample.fresh (Sample.script
    [Returns (Sample.rate_limited "0.01");
     Throws (TransportError "Read timed out");
     Returns unspecified_wait;
     Returns (Sample.rate_limited "2")]).

(** A server that cannot be reached. *)
Definition unreachable : world := Sample.fresh (Sample.script []).

(** [RentAHumanClient(max_retries=-1)]. *)
Definition negative_client : client := init None BASE_URL DEFAULT_TIMEOUT (-1).

(** A body that is no booking at all. *)
Definition status_page : pydict := [("success", JBool true); ("uptime", JInt 99)].


(** A gateway that answers every request with an HTML page and the given
    status; [json_error] is what [json()] raises on it:
    [requests.exceptions.JSONDecodeError], of the transport's class, in the
    blocking client, and [json.JSONDecodeError], a [ValueError], in the
    other. *)
Definition html_page (status : Z) (json_error : exception) : world :=
  Sample.fresh (fun _ =>
    Returns {| status_code := status; headers := [("Content-Type", "text/html")];
               content := "<html>Bad Gateway</html>";
               reason := Some "Bad Gateway";
               resp_json := Throws json_error |}).

Definition as_requests : exception := TransportError "Expecting value".
Definition as_httpx : exception := Builtin ValueError.



(** A booking as the server sends it. *)
Definition wire_booking : pydict :=
  [("id", JStr "booking_001"); ("humanId", JStr "human_042");
   ("taskTitle", JStr "Pick up a package"); ("estimatedHours", JInt 2)].

End Scenarios.


(** * Properties *)

(** ** Lists, strings and ranges *)

Lemma range_nil (a b : Z) : b <= a -> range a b = [].
Proof.
  intros H. unfold range.
  replace (Z.to_nat (b - a)) with 0%nat by lia. reflexivity.
Qed.

Lemma range_cons (a b : Z) : a < b -> range a b = a :: range (a + 1) b.
Proof.
  intros H. unfold range.
  replace (Z.to_nat (b - a)) with (S (Z.to_nat (b - (a + 1)))) by lia.
  cbn [seq map]. f_equal; [lia|].
  rewrite <- seq_shift, map_map.
  apply map_ext. intros i. lia.
Qed.

Lemma length_range (a b : Z) : List.length (range a b) = Z.to_nat (b - a).
Proof. unfold range. now rewrite length_map, length_seq. Qed.

Lemma lookup_setitem_other (k k' : string) (v : json) (d : pydict) :
  k <> k' -> lookup k (setitem k' v d) = lookup k d.
Proof.
  intros Hk. induction d as [|[k0 v0] d IH]; cbn.
  - destruct (String.eqb_spec k k'); congruence.
  - destruct (String.eqb_spec k' k0) as [->|Hne]; cbn.
    + destruct (String.eqb_spec k k0); congruence.
    + destruct (String.eqb_spec k k0); congruence.
Qed.

Lemma prefix_append (p s : string) :
  String.prefix p s = true <-> exists rest, s = p ++ rest.
Proof.
  revert s. induction p as [|ch p IH]; intros s; cbn.
  - split; [intros _; exists s; reflexivity | now destruct s].
  - destruct s as [|ch' s]; cbn.
    + split; [discriminate | intros [rest H]; discriminate].
    + destruct (Ascii.ascii_dec ch ch') as [->|Hne].
      * rewrite IH. split; intros [rest H]; exists rest; congruence.
      * split; [discriminate | intros [rest H]; congruence].
Qed.

Lemma contains_occurs (sub s : string) :
  contains sub s = true <-> occurs_in sub s.
Proof.
  induction s as [|ch s IH].
  - cbn [contains]. rewrite orb_false_r, prefix_append. split.
    + intros [rest H]. exists "", rest. exact H.
    + intros [before [after H]]. destruct before; cbn in H.
      * now exists after.
      * discriminate.
  - cbn [contains]. rewrite orb_true_iff, IH, prefix_append. split.
    + intros [[rest H] | [before [after H]]].
      * exists "", rest. exact H.
      * exists (String ch before), after. cbn. now rewrite H.
    + intros [before [after H]]. destruct before as [|ch' before]; cbn in H.
      * left. now exists after.
      * right. exists before, after. congruence.
Qed.

(** ** One pass through the loop *)

(** *** The floats of the retry policy *)

Lemma Zdigits2_bound (m K : Z) : 0 <= m < 2 ^ K -> 0 <= K -> Zdigits2 m <= K.
Proof.
  destruct m as [|p|p]; cbn [Zdigits2]; [lia | | lia].
  revert K. induction p as [p IH|p IH|]; intros K [_ H] HK; cbn [digits2_pos].
  - assert (K <> 0) by (intros ->; cbn in H; lia).
    replace K with (Z.succ (K - 1)) in H by lia. rewrite Z.pow_succ_r in H by lia.
    specialize (IH (K - 1)). lia.
  - assert (K <> 0) by (intros ->; cbn in H; lia).
    replace K with (Z.succ (K - 1)) in H by lia. rewrite Z.pow_succ_r in H by lia.
    specialize (IH (K - 1)). lia.
  - assert (K <> 0) by (intros ->; cbn in H; lia). lia.
Qed.

Lemma iter_pos_inv {A : Type} (P : A -> Prop) (f : A -> A) (n : positive) (x : A) :
  (forall y, P y -> P (f y)) -> P x -> P (iter_pos f n x).
Proof.
  intros Hf. revert x. induction n; intros x Hx; cbn; auto.
Qed.

Lemma shr_1_bound (M : Z) (mrs : shr_record) :
  0 <= shr_m mrs <= M -> 0 <= shr_m (shr_1 mrs) <= M.
Proof.
  destruct mrs as [m r s]. cbn [shr_m].
  destruct m as [|[p|p|]|p]; cbn; lia.
Qed.

Lemma shr_bound (M : Z) (mrs : shr_record) (e n : Z) :
  0 <= shr_m mrs <= M ->
  0 <= shr_m (fst (shr mrs e n)) <= M /\
  (snd (shr mrs e n) = e \/ snd (shr mrs e n) = e + n).
Proof.
  intros H. unfold shr. destruct n as [|p|p]; cbn [fst snd]; auto.
  split; [|now right]. apply iter_pos_inv; [apply shr_1_bound | exact H].
Qed.

Lemma round_nearest_even_bound (m : Z) (l : location) :
  0 <= m -> 0 <= round_nearest_even m l <= m + 1.
Proof.
  intros H. unfold round_nearest_even.
  destruct l as [|[| |]]; try destruct (Z.even m); lia.
Qed.

Lemma shr_record_of_loc_m (m : Z) (l : location) : shr_m (shr_record_of_loc m l) = m.
Proof. destruct l as [|[| |]]; reflexivity. Qed.

(** Rounding a mantissa below [2^K] at an exponent of at most [E] gives zero
    or a positive finite number, far from overflow. *)
Lemma binary_round_aux_plain (mx ex K E : Z) (l : location) :
  0 <= mx < 2 ^ K -> 0 <= K -> ex <= E -> 0 <= E -> E + 2 * K <= 900 ->
  plain (binary_round_aux prec emax false mx ex l) /\
  forall m e, binary_round_aux prec emax false mx ex l = S754_finite false m e ->
              Zpos m <= 2 ^ K /\ e <= E + 2 * K.
Proof.
  intros Hm HK He HE Hb. unfold binary_round_aux, shr_fexp.
  pose proof (Zdigits2_bound Hm HK) as Hd.
  destruct (@shr_bound mx (shr_record_of_loc mx l) ex
              (fexp prec emax (Zdigits2 mx + ex) - ex)) as [H1 H1e].
  { rewrite shr_record_of_loc_m. lia. }
  destruct (shr (shr_record_of_loc mx l) ex (fexp prec emax (Zdigits2 mx + ex) - ex))
    as [mrs' e']. cbn [fst snd] in H1, H1e.
  pose proof (@round_nearest_even_bound (shr_m mrs') (loc_of_shr_record mrs')
                (proj1 H1)) as Hr.
  set (m' := round_nearest_even (shr_m mrs') (loc_of_shr_record mrs')) in *.
  assert (0 <= m' < 2 ^ (K + 1)) as Hm'.
  { rewrite Z.pow_add_r by lia. rewrite Z.pow_1_r. lia. }
  pose proof (@Zdigits2_bound m' (K + 1) Hm' ltac:(lia)) as Hd'.
  destruct (@shr_bound m' (shr_record_of_loc m' loc_Exact) e'
              (fexp prec emax (Zdigits2 m' + e') - e')) as [H2 H2e].
  { cbn. lia. }
  destruct (shr (shr_record_of_loc m' loc_Exact) e'
              (fexp prec emax (Zdigits2 m' + e') - e')) as [mrs'' e''].
  cbn [fst snd] in H2, H2e.
  assert (e'' <= E + 2 * K) as Hfin.
  { unfold fexp, emin, prec, emax in *. lia. }
  destruct (shr_m mrs'') as [|m|m] eqn:Em; [cbn; split; [exact I|discriminate] | | lia].
  replace (e'' <=? emax - prec) with true
    by (symmetry; apply Z.leb_le; unfold emax, prec; lia).
  split; [exact I|]. intros m0 e0 H. inversion H; subst. split; [lia | exact Hfin].
Qed.

(** [float(n)] for [0 <= n < 2^63] is zero or positive and finite. *)
Lemma of_uint63_plain (x : int) :
  plain (Prim2SF (of_uint63 x)) /\
  forall m e, Prim2SF (of_uint63 x) = S754_finite false m e ->
              Zpos m <= 2 ^ 115 /\ e <= 230.
Proof.
  rewrite of_uint63_spec. pose proof (Uint63.to_Z_bounded x) as Hx.
  change wB with (2 ^ 63) in Hx.
  destruct (Uint63.to_Z x) as [|p|p]; cbn [binary_normalize];
    [split; [exact I|discriminate] | | lia].
  unfold binary_round, shl_align.
  assert (Zpos (digits2_pos p) <= 63) as Hd
    by (apply (@Zdigits2_bound (Zpos p) 63); lia).
  assert (0 <= Zpos p < 2 ^ 115) as Hp
    by (split; [lia|]; apply Z.lt_trans with (2 ^ 63); [lia | reflexivity]).
  destruct (fexp prec emax (Zpos (digits2_pos p) + 0) - 0) as [|d|d] eqn:Ed.
  - apply (@binary_round_aux_plain (Zpos p) 0 115 0); lia.
  - apply (@binary_round_aux_plain (Zpos p) 0 115 0); lia.
  - assert (Zpos d <= 52) as Hd52 by (unfold fexp, emin, prec, emax in Ed; lia).
    assert (0 <= Zpos (Pos.iter xO p d) < 2 ^ 115) as Hs.
    { change (Pos.iter xO p d) with (shift_pos d p).
      rewrite shift_pos_correct. change (Zpower_pos 2 d) with (2 ^ Zpos d).
      split; [lia|].
      apply Z.lt_le_trans with (2 ^ Zpos d * 2 ^ 63).
      - apply Z.mul_lt_mono_pos_l; lia.
      - change 115 with (52 + 63). rewrite (Z.pow_add_r 2 52 63) by lia.
        apply Z.mul_le_mono_nonneg_r; [lia|].
        apply Z.pow_le_mono_r; lia. }
    apply (@binary_round_aux_plain (Zpos (Pos.iter xO p d)) _ 115 0);
      unfold fexp, emin, prec, emax in *; lia.
Qed.

Lemma half_of_uint63_plain (x : int) : plain (Prim2SF (0.5 * of_uint63 x)).
Proof.
  rewrite mul_spec. destruct (of_uint63_plain x) as [Hp Hb].
  change (Prim2SF 0.5) with (S754_finite false 4503599627370496 (-53)).
  destruct (Prim2SF (of_uint63 x)) as [[|]|[|]| |[|] m e]; try contradiction.
  - exact I.
  - destruct (Hb m e eq_refl) as [Hm He]. unfold SF64mul, SFmul. cbn [xorb].
    assert (0 <= Zpos (4503599627370496 * m) < 2 ^ 168) as Hq.
    { rewrite Pos2Z.inj_mul. change (Zpos 4503599627370496) with (2 ^ 52).
      split; [lia|].
      apply Z.le_lt_trans with (2 ^ 52 * 2 ^ 115).
      - apply Z.mul_le_mono_nonneg_l; lia.
      - reflexivity. }
    apply (@binary_round_aux_plain _ (-53 + e) 168 177); lia.
Qed.

Lemma plain_finite_wait (d : float) : plain (Prim2SF d) -> finite_wait d = true.
Proof.
  unfold finite_wait, is_nan, is_infinity. rewrite !eqb_spec, ltb_spec, abs_spec.
  change (Prim2SF infinity) with (S754_infinity false).
  change (Prim2SF 0) with (S754_zero false).
  destruct (Prim2SF d) as [[|]|[|]| |[|] m e]; try contradiction; cbn.
  - reflexivity.
  - unfold SFeqb, SFltb. cbn. rewrite Z.compare_refl, Pos.compare_cont_refl. reflexivity.
Qed.

(** The backoff of every attempt is a duration [time.sleep] takes. *)
Lemma backoff_finite_wait (n : Z) :
  0 <= n -> finite_wait (0.5 * float_of_int (n + 1)) = true.
Proof.
  intros Hn. unfold float_of_int.
  destruct (Z.ltb_spec (n + 1) 0); [lia|].
  apply plain_finite_wait, half_of_uint63_plain.
Qed.

Lemma sleepable_finite_wait (d : float) : sleepable d = true -> finite_wait d = true.
Proof.
  unfold sleepable, finite_wait, is_nan, is_infinity, clock_range.
  rewrite !eqb_spec, ltb_spec, leb_spec, abs_spec.
  change (Prim2SF infinity) with (S754_infinity false).
  change (Prim2SF 0) with (S754_zero false).
  assert (exists m e, Prim2SF 9e9 = S754_finite false m e) as (bm & be & ->)
    by (do 2 eexists; vm_compute; reflexivity).
  destruct (Prim2SF d) as [[|]|[|]| |[|] m e];
    cbv [SFeqb SFltb SFleb SFcompare SFabs];
    rewrite ?Z.compare_refl, ?Pos.compare_cont_refl;
    cbn [negb andb CompOpp]; try reflexivity; try discriminate.
Qed.

(** *** The two sleeps *)

Lemma finite_wait_time_sleep (d : float) :
  finite_wait d = true -> time_sleep_check d = None.
Proof.
  unfold finite_wait, time_sleep_check. rewrite !andb_true_iff, !negb_true_iff.
  intros [[-> ->] ->]. reflexivity.
Qed.

Lemma finite_wait_asyncio_sleep {RT : Runtime} (d : float) :
  finite_wait d = true -> asyncio_sleep_check d = None.
Proof.
  unfold finite_wait, asyncio_sleep_check. rewrite !andb_true_iff, !negb_true_iff.
  intros [[-> ->] ->]. reflexivity.
Qed.

(** [time.sleep] takes exactly the durations of [finite_wait]. *)
Lemma time_sleep_check_finite_wait (d : float) :
  time_sleep_check d = None <-> finite_wait d = true.
Proof.
  split; [|apply finite_wait_time_sleep].
  unfold finite_wait, time_sleep_check.
  destruct (is_nan d); [discriminate|].
  destruct (is_infinity d); [discriminate|].
  destruct (d <? 0)%float; [discriminate | reflexivity].
Qed.

(** What [time.sleep] takes, [asyncio.sleep] takes. *)
Lemma time_sleep_asyncio_sleep {RT : Runtime} (d : float) :
  time_sleep_check d = None -> asyncio_sleep_check d = None.
Proof.
  intros H. apply finite_wait_asyncio_sleep, time_sleep_check_finite_wait, H.
Qed.

Lemma backoff_time_sleep (n : Z) :
  0 <= n -> time_sleep_check (0.5 * float_of_int (n + 1)) = None.
Proof. intros H. apply finite_wait_time_sleep, backoff_finite_wait, H. Qed.

Lemma backoff_asyncio_sleep {RT : Runtime} (n : Z) :
  0 <= n -> asyncio_sleep_check (0.5 * float_of_int (n + 1)) = None.
Proof. intros H. apply finite_wait_asyncio_sleep, backoff_finite_wait, H. Qed.

Lemma sleepable_time_sleep (d : float) :
  sleepable d = true -> time_sleep_check d = None.
Proof. intros H. apply finite_wait_time_sleep, sleepable_finite_wait, H. Qed.

Lemma sleepable_asyncio_sleep {RT : Runtime} (d : float) :
  sleepable d = true -> asyncio_sleep_check d = None.
Proof. intros H. apply finite_wait_asyncio_sleep, sleepable_finite_wait, H. Qed.

(** An attempt unfolded up to its sleeps, and with them. *)
Ltac unfold_attempt_to_sleep :=
  unfold Client.attempt_once, AsyncClient.attempt_once, try_except_transport,
    bind, send, lift, ret, raise.

Ltac unfold_attempt :=
  unfold_attempt_to_sleep; unfold time_sleep, asyncio_sleep, pause, raise.

(** The backoff of attempt [n] is taken, by [Hn : 0 <= n]. *)
Ltac backoff_taken Hn :=
  unfold time_sleep, asyncio_sleep;
  rewrite ?(@backoff_time_sleep _ Hn), ?(@backoff_asyncio_sleep _ _ Hn);
  unfold pause.

(** Case analysis on everything an attempt branches on. *)
Ltac split_attempt :=
  repeat (cbn [fst snd net sent slept record_request record_sleep];
          match goal with
          | |- context [match ?x with _ => _ end] =>
              lazymatch x with
              | context [match _ with _ => _ end] => fail
              | _ => destruct x eqn:?
              end
          end).

Ltac attempt_effect_tac :=
  intros; unfold_attempt; split_attempt;
  cbn [fst snd net sent slept record_request record_sleep];
  repeat match goal with
         | H : (_ <? _) = true |- _ => apply Z.ltb_lt in H
         end;
  repeat split; try reflexivity; try assumption; eauto.

Lemma sync_attempt_effect {RT : Runtime} c req attempt w :
  attempt_effect c req attempt w (Client.attempt_once c req attempt w).
Proof. unfold attempt_effect. attempt_effect_tac. Qed.

Lemma async_attempt_effect {RT : Runtime} c req attempt w :
  attempt_effect c req attempt w (AsyncClient.attempt_once c req attempt w).
Proof. unfold attempt_effect. attempt_effect_tac. Qed.

(** ** The loop *)

Lemma sync_loop_cons {RT : Runtime} c req attempt rest w :
  Client.request_loop c req (attempt :: rest) w =
  match Client.attempt_once c req attempt w with
  | (Returns (Some data), w') => (Returns data, w')
  | (Returns None, w') => Client.request_loop c req rest w'
  | (Throws e, w') => (Throws e, w')
  end.
Proof.
  cbn [Client.request_loop]. unfold bind at 1.
  destruct (Client.attempt_once c req attempt w) as [[[data|]|e] w']; reflexivity.
Qed.

Lemma async_loop_cons {RT : Runtime} c req attempt rest w :
  AsyncClient.request_loop c req (attempt :: rest) w =
  match AsyncClient.attempt_once c req attempt w with
  | (Returns (Some data), w') => (Returns data, w')
  | (Returns None, w') => AsyncClient.request_loop c req rest w'
  | (Throws e, w') => (Throws e, w')
  end.
Proof.
  cbn [AsyncClient.request_loop]. unfold bind at 1.
  destruct (AsyncClient.attempt_once c req attempt w) as [[[data|]|e] w']; reflexivity.
Qed.

Lemma sync_loop_effect {RT : Runtime} c req attempts w :
  loop_effect req (List.length attempts) w (Client.request_loop c req attempts w).
Proof.
  revert w. unfold loop_effect.
  induction attempts as [|attempt attempts IH]; intros w.
  - cbn. split; [reflexivity|].
    exists 0%nat, []. cbn. rewrite !app_nil_r. repeat split; lia.
  - rewrite sync_loop_cons.
    pose proof (sync_attempt_effect c req attempt w) as Heff.
    destruct (Client.attempt_once c req attempt w) as [[[data|]|e] w1];
      destruct Heff as (Hnet & Hsent & Hslept); cbn [fst snd] in *.
    + split; [assumption|]. exists 1%nat, []. cbn.
      rewrite app_nil_r. repeat split; auto; lia.
    + destruct Hslept as (_ & d & Hslept).
      destruct (IH w1) as (Hnet' & k & ds & Hs & Hk & Hpos & Hsl & Hds).
      split; [congruence|].
      exists (S k), (d :: ds). cbn [repeat List.length].
      rewrite Hs, Hsent, Hsl, Hslept, <- !app_assoc. cbn [app].
      repeat split; lia.
    + split; [assumption|]. exists 1%nat, []. cbn.
      rewrite app_nil_r. repeat split; auto; lia.
Qed.

Lemma async_loop_effect {RT : Runtime} c req attempts w :
  loop_effect req (List.length attempts) w (AsyncClient.request_loop c req attempts w).
Proof.
  revert w. unfold loop_effect.
  induction attempts as [|attempt attempts IH]; intros w.
  - cbn. split; [reflexivity|].
    exists 0%nat, []. cbn. rewrite !app_nil_r. repeat split; lia.
  - rewrite async_loop_cons.
    pose proof (async_attempt_effect c req attempt w) as Heff.
    destruct (AsyncClient.attempt_once c req attempt w) as [[[data|]|e] w1];
      destruct Heff as (Hnet & Hsent & Hslept); cbn [fst snd] in *.
    + split; [assumption|]. exists 1%nat, []. cbn.
      rewrite app_nil_r. repeat split; auto; lia.
    + destruct Hslept as (_ & d & Hslept).
      destruct (IH w1) as (Hnet' & k & ds & Hs & Hk & Hpos & Hsl & Hds).
      split; [congruence|].
      exists (S k), (d :: ds). cbn [repeat List.length].
      rewrite Hs, Hsent, Hsl, Hslept, <- !app_assoc. cbn [app].
      repeat split; lia.
    + split; [assumption|]. exists 1%nat, []. cbn.
      rewrite app_nil_r. repeat split; auto; lia.
Qed.


Lemma sync_retry_after_seconds {RT : Runtime} resp d :
  retry_after_seconds resp d -> Client.retry_after_of resp = Returns d.
Proof.
  unfold retry_after_seconds, Client.retry_after_of, py_float.
  destruct (headers_get "Retry-After" (headers resp)); intros H.
  - now rewrite H.
  - now subst.
Qed.

Lemma async_retry_after_seconds {RT : Runtime} resp d :
  retry_after_seconds resp d -> AsyncClient.retry_after_of resp = Returns d.
Proof.
  unfold retry_after_seconds, AsyncClient.retry_after_of, py_float.
  destruct (headers_get "Retry-After" (headers resp)); intros H.
  - now rewrite H.
  - subst. now rewrite float_of_str_one.
Qed.

(** The two classes read the header alike. *)
Lemma retry_after_of_agree {RT : Runtime} resp :
  Client.retry_after_of resp = AsyncClient.retry_after_of resp.
Proof.
  unfold Client.retry_after_of, AsyncClient.retry_after_of, py_float.
  destruct (headers_get "Retry-After" (headers resp)); [reflexivity|].
  now rewrite float_of_str_one.
Qed.

Lemma nonempty_true (s : string) : s <> "" -> nonempty s = true.
Proof. destruct s; [congruence | reflexivity]. Qed.

(** *** A transport failure *)

Ltac transport_failure_tac :=
  let Hn := fresh in
  let H := fresh in
  let Hcode := fresh in
  let Hbody := fresh in
  let Hjson := fresh in
  let Hge := fresh in
  intros Hn H; unfold_attempt_to_sleep; backoff_taken Hn;
  destruct H as [? | ? ? Hcode Hbody Hjson]; cbn;
  [ destruct (_ <? _); reflexivity
  | rewrite (proj2 (Z.eqb_neq _ _) Hcode);
    destruct (_ >=? 400) eqn:Hge;
    [ destruct Hbody as [Hbody | Hbody];
      [ apply Z.geb_le in Hge; lia
      | rewrite (nonempty_true Hbody), Hjson; destruct (_ <? _); reflexivity ]
    | rewrite Hjson; destruct (_ <? _); reflexivity ] ].

Lemma sync_attempt_failure {RT : Runtime} c req n w msg :
  0 <= n ->
  transport_failure (net w (List.length (sent w))) msg ->
  Client.attempt_once c req n w =
  if n <? max_retries c
  then (Returns None,
        record_sleep (0.5 * float_of_int (n + 1)) (record_request req w))
  else (Throws (RentAHumanError (JStr ("Request failed: " ++ msg)) None),
        record_request req w).
Proof.
  transport_failure_tac.
Qed.

Lemma async_attempt_failure {RT : Runtime} c req n w msg :
  0 <= n ->
  transport_failure (net w (List.length (sent w))) msg ->
  AsyncClient.attempt_once c req n w =
  if n <? max_retries c
  then (Returns None,
        record_sleep (0.5 * float_of_int (n + 1)) (record_request req w))
  else (Throws (RentAHumanError (JStr ("Request failed: " ++ msg)) None),
        record_request req w).
Proof.
  transport_failure_tac.
Qed.

Lemma sync_issued_bound {RT : Runtime} c method path kw w :
  Z.of_nat (issued w (snd (Client._request c method path kw w)))
  <= Z.max 0 (max_retries c + 1).
Proof.
  unfold issued, Client._request.
  destruct (sync_loop_effect c (Client.build_request c method path kw)
              (range 0 (max_retries c + 1)) w)
    as (_ & k & ds & Hs & Hk & _).
  rewrite Hs, length_app, repeat_length, length_range in *. lia.
Qed.

Lemma async_issued_bound {RT : Runtime} c method path kw w :
  Z.of_nat (issued w (snd (AsyncClient._request c method path kw w)))
  <= Z.max 0 (max_retries c + 1).
Proof.
  unfold issued, AsyncClient._request.
  destruct (async_loop_effect c (AsyncClient.build_request c method path kw)
              (range 0 (max_retries c + 1)) w)
    as (_ & k & ds & Hs & Hk & _).
  rewrite Hs, length_app, repeat_length, length_range in *. lia.
Qed.

(** C4. A transport-level failure on attempt [n] of the loop makes the
    executor sleep [0.5 * (n + 1)] seconds and go on with attempt [n + 1]
    when [n < max_retries], and raise [RentAHumanError("Request failed: ...")]
    otherwise; and a call of [_request] issues at most [max_retries + 1]
    requests.  Both classes. *)
Theorem transport_failure_backoff {RT : Runtime} (c : client) (req : request)
    (n : Z) (w : world) (msg : string) :
  0 <= n <= max_retries c ->
  transport_failure (net w (List.length (sent w))) msg ->
  Client.request_loop c req (range n (max_retries c + 1)) w =
    (if n <? max_retries c
     then Client.request_loop c req (range (n + 1) (max_retries c + 1))
            (record_sleep (0.5 * float_of_int (n + 1)) (record_request req w))
     else (Throws (RentAHumanError (JStr ("Request failed: " ++ msg)) None),
           record_request req w)) /\
  AsyncClient.request_loop c req (range n (max_retries c + 1)) w =
    (if n <? max_retries c
     then AsyncClient.request_loop c req (range (n + 1) (max_retries c + 1))
            (record_sleep (0.5 * float_of_int (n + 1)) (record_request req w))
     else (Throws (RentAHumanError (JStr ("Request failed: " ++ msg)) None),
           record_request req w)) /\
  (forall method path kw w0,
      Z.of_nat (issued w0 (snd (Client._request c method path kw w0)))
      <= max_retries c + 1) /\
  (forall method path kw w0,
      Z.of_nat (issued w0 (snd (AsyncClient._request c method path kw w0)))
      <= max_retries c + 1).
Proof.
  intros Hn Hfail. rewrite (@range_cons n (max_retries c + 1)) by lia.
  rewrite sync_loop_cons, async_loop_cons.
  rewrite (@sync_attempt_failure _ c req n w msg (proj1 Hn) Hfail),
    (@async_attempt_failure _ c req n w msg (proj1 Hn) Hfail).
  repeat split.
  - destruct (n <? max_retries c); reflexivity.
  - destruct (n <? max_retries c); reflexivity.
  - intros. pose proof (sync_issued_bound c method path kw w0). lia.
  - intros. pose proof (async_issued_bound c method path kw w0). lia.
Qed.

(** *** A 429 response *)

Lemma sync_attempt_429 {RT : Runtime} c req n w resp d :
  net w (List.length (sent w)) = Returns resp ->
  status_code resp = 429 ->
  retry_after_seconds resp d ->
  Client.attempt_once c req n w =
  if n <? max_retries c
  then match time_sleep_check d with
       | Some e => (Throws (Builtin e), record_request req w)
       | None => (Returns None, record_sleep d (record_request req w))
       end
  else (Throws (RateLimitError d), record_request req w).
Proof.
  intros Hnet Hcode Hd. unfold_attempt.
  rewrite Hnet, Hcode. cbn. rewrite (@sync_retry_after_seconds _ resp d Hd). cbn.
  destruct (n <? max_retries c); [|reflexivity].
  destruct (time_sleep_check d); reflexivity.
Qed.

Lemma async_attempt_429 {RT : Runtime} c req n w resp d :
  net w (List.length (sent w)) = Returns resp ->
  status_code resp = 429 ->
  retry_after_seconds resp d ->
  AsyncClient.attempt_once c req n w =
  if n <? max_retries c
  then match asyncio_sleep_check d with
       | Some e => (Throws (Builtin e), record_request req w)
       | None => (Returns None, record_sleep d (record_request req w))
       end
  else (Throws (RateLimitError d), record_request req w).
Proof.
  intros Hnet Hcode Hd. unfold_attempt.
  rewrite Hnet, Hcode. cbn. rewrite (@async_retry_after_seconds _ resp d Hd). cbn.
  destruct (n <? max_retries c); [|reflexivity].
  destruct (asyncio_sleep_check d); reflexivity.
Qed.






(** *** An error status *)





(** ** The two executors side by side *)

Lemma retry_after_seconds_of {RT : Runtime} resp d :
  Client.retry_after_of resp = Returns d -> retry_after_seconds resp d.
Proof.
  unfold retry_after_seconds, Client.retry_after_of, py_float.
  destruct (headers_get "Retry-After" (headers resp)) as [s|].
  - destruct (float_of_str s); intros H; now inversion H.
  - intros H. now inversion H.
Qed.

Lemma range_nonneg (a b : Z) : 0 <= a -> Forall (fun n => 0 <= n) (range a b).
Proof.
  intros Ha. unfold range. apply Forall_forall. intros n Hn.
  apply in_map_iff in Hn. destruct Hn as (i & <- & _). lia.
Qed.

Ltac same_course_tac :=
  unfold same_course; cbn; rewrite ?length_app; cbn; repeat split; congruence.

(** One attempt of the two classes from worlds on the same course: the same
    result and the same course after it, unless the blocking class is asked
    for a wait [time.sleep] refuses. *)
Lemma attempt_agree_unless {RT : Runtime} c req1 req2 attempt w1 w2 :
  same_course w1 w2 ->
  0 <= attempt ->
  (fst (Client.attempt_once c req1 attempt w1) =
   fst (AsyncClient.attempt_once c req2 attempt w2) /\
   same_course (snd (Client.attempt_once c req1 attempt w1))
               (snd (AsyncClient.attempt_once c req2 attempt w2))) \/
  (exists e,
      refused_wait w1 (List.length (sent w1)) e /\
      Client.attempt_once c req1 attempt w1 =
        (Throws (Builtin e), record_request req1 w1)).
Proof.
  intros (Hnet & Hlen & Hslept) Hn.
  destruct (net w1 (List.length (sent w1))) as [resp|e] eqn:E1.
  - assert (net w2 (List.length (sent w2)) = Returns resp) as E2 by congruence.
    destruct (Z.eqb_spec (status_code resp) 429) as [H429|H429].
    + destruct (Client.retry_after_of resp) as [d|e] eqn:Er.
      * pose proof (@retry_after_seconds_of _ resp d Er) as Hd.
        rewrite (@sync_attempt_429 _ c req1 attempt w1 resp d E1 H429 Hd),
          (@async_attempt_429 _ c req2 attempt w2 resp d E2 H429 Hd).
        destruct (attempt <? max_retries c); [|left; same_course_tac].
        destruct (time_sleep_check d) as [e|] eqn:Et.
        -- right. exists e. split; [exists resp, d; auto | reflexivity].
        -- rewrite (@time_sleep_asyncio_sleep _ d Et). left. same_course_tac.
      * left. unfold_attempt_to_sleep. backoff_taken Hn. rewrite E1, E2.
        rewrite <- (retry_after_of_agree resp), Er.
        cbn [fst snd]. rewrite H429.
        split_attempt; same_course_tac.
    + left. unfold_attempt_to_sleep. backoff_taken Hn. rewrite E1, E2.
      cbn [fst snd]. rewrite (proj2 (Z.eqb_neq _ _) H429).
      split_attempt; same_course_tac.
  - assert (net w2 (List.length (sent w2)) = Throws e) as E2 by congruence.
    left. unfold_attempt_to_sleep. backoff_taken Hn. rewrite E1, E2.
    split_attempt; same_course_tac.
Qed.

(** The loops of the two classes from worlds on the same course: the same
    result and the same course after it, unless the blocking class meets a
    wait [time.sleep] refuses, which ends its call. *)
Lemma loop_agree_unless {RT : Runtime} c req1 req2 attempts w1 w2 :
  same_course w1 w2 ->
  Forall (fun n => 0 <= n) attempts ->
  (fst (Client.request_loop c req1 attempts w1) =
   fst (AsyncClient.request_loop c req2 attempts w2) /\
   same_course (snd (Client.request_loop c req1 attempts w1))
               (snd (AsyncClient.request_loop c req2 attempts w2))) \/
  (exists k e,
      refused_wait w1 k e /\
      fst (Client.request_loop c req1 attempts w1) = Throws (Builtin e)).
Proof.
  revert w1 w2. induction attempts as [|attempt attempts IH]; intros w1 w2 Hw Hall.
  - left. cbn. auto.
  - inversion Hall as [|? ? Hn Hrest]; subst.
    rewrite sync_loop_cons, async_loop_cons.
    destruct (@attempt_agree_unless _ c req1 req2 attempt w1 w2 Hw Hn)
      as [[Hres Hcourse] | (e & Href & Hsync)].
    + pose proof (sync_attempt_effect c req1 attempt w1) as (Hnet1 & _).
      destruct (Client.attempt_once c req1 attempt w1) as [r1 v1].
      destruct (AsyncClient.attempt_once c req2 attempt w2) as [r2 v2].
      cbn [fst snd] in *. subst r2.
      destruct r1 as [[data|]|e]; cbn [fst snd]; auto.
      destruct (IH v1 v2 Hcourse Hrest) as [Hagree | (k & e & Href & Hsync)];
        [now left | right].
      exists k, e. split; [|exact Hsync].
      unfold refused_wait in *. rewrite <- Hnet1. exact Href.
    + right. exists (List.length (sent w1)), e. rewrite Hsync. auto.
Qed.


(** ** Path parameters *)

Lemma sanitize_unsafe {RT : Runtime} value w :
  unsafe_path_param value ->
  _sanitize_path_param value w = (Throws (invalid_path_param value), w).
Proof.
  intros H. unfold _sanitize_path_param.
  replace (negb (nonempty value) || contains "/" value || contains "\" value
           || contains ".." value)%bool with true; [reflexivity|].
  symmetry. rewrite !orb_true_iff.
  destruct H as [-> | [H | [H | H]]]; apply contains_occurs in H || idtac; auto.
Qed.

Lemma sanitize_safe {RT : Runtime} value w :
  ~ unsafe_path_param value ->
  _sanitize_path_param value w = (Returns value, w).
Proof.
  intros H. unfold _sanitize_path_param.
  destruct (negb (nonempty value) || contains "/" value || contains "\" value
            || contains ".." value)%bool eqn:E; [|reflexivity].
  exfalso. apply H. rewrite !orb_true_iff in E. unfold unsafe_path_param.
  rewrite <- !contains_occurs.
  destruct E as [[[E | E] | E] | E]; auto.
  destruct value; [auto | discriminate].
Qed.

Lemma sanitize_decides {RT : Runtime} value w :
  _sanitize_path_param value w = (Throws (invalid_path_param value), w) \/
  _sanitize_path_param value w = (Returns value, w).
Proof.
  unfold _sanitize_path_param.
  destruct (_ || _)%bool; [left | right]; reflexivity.
Qed.

(** C1. Every operation that puts an identifier of the caller into the URL
    path refuses an identifier that is empty or contains [/], a backslash or
    [..]: it raises the validation error ([RentAHumanError] with the text
    [Invalid path parameter: ...]) and the world is unchanged, so no request
    was issued.  This holds whatever [_request] the class has, hence for
    both classes.  For [accept_application] either identifier is enough. *)
Theorem unsafe_path_param_refused {RT : Runtime}
    (_request : client -> string -> string -> kwargs -> M json)
    (c : client) (value : string) (w : world) :
  unsafe_path_param value ->
  refused value w (Operations.get_human _request c value w) /\
  refused value w (Operations.get_reviews _request c value w) /\
  refused value w (Operations.get_booking _request c value w) /\
  refused value w (Operations.get_bounty _request c value w) /\
  refused value w (Operations.get_bounty_applications _request c value w) /\
  (forall application_id,
      refused value w (Operations.accept_application _request c value application_id w)) /\
  (forall bounty_id,
      refused bounty_id w (Operations.accept_application _request c bounty_id value w) \/
      refused value w (Operations.accept_application _request c bounty_id value w)) /\
  (forall updates,
      refused value w (Operations.update_bounty _request c value updates w)) /\
  (forall message,
      refused value w (Operations.send_message _request c value message w)) /\
  refused value w (Operations.get_conversation _request c value w).
Proof.
  intros H. pose proof (sanitize_unsafe w H) as Hs.
  unfold refused, Operations.get_human, Operations.get_reviews,
    Operations.get_booking, Operations.get_bounty,
    Operations.get_bounty_applications, Operations.accept_application,
    Operations.update_bounty, Operations.send_message,
    Operations.get_conversation.
  repeat split; intros; unfold bind at 1; cbv beta;
    try (rewrite Hs; reflexivity).
  destruct (sanitize_decides bounty_id w) as [E | E].
  - left. rewrite E. reflexivity.
  - right. unfold bind at 1. cbv beta. rewrite E.
    unfold bind at 1. cbv beta. rewrite Hs. reflexivity.
Qed.

(** ** Query parameters *)

Lemma skipn_length_app {A : Type} (l l' : list A) :
  skipn (List.length l) (l ++ l')%list = l'.
Proof. induction l; cbn; auto. Qed.

Lemma sync_new_requests {RT : Runtime} c method path kw w :
  exists k,
    new_requests w (snd (Client._request c method path kw w)) =
    repeat (Client.build_request c method path kw) k /\
    (0 <= max_retries c -> (0 < k)%nat).
Proof.
  unfold new_requests, Client._request.
  destruct (sync_loop_effect c (Client.build_request c method path kw)
              (range 0 (max_retries c + 1)) w)
    as (_ & k & ds & Hs & _ & Hpos & _).
  exists k. rewrite Hs, skipn_length_app. split; [reflexivity|].
  intros H. apply Hpos. rewrite length_range. lia.
Qed.

Lemma async_new_requests {RT : Runtime} c method path kw w :
  exists k,
    new_requests w (snd (AsyncClient._request c method path kw w)) =
    repeat (AsyncClient.build_request c method path kw) k /\
    (0 <= max_retries c -> (0 < k)%nat).
Proof.
  unfold new_requests, AsyncClient._request.
  destruct (async_loop_effect c (AsyncClient.build_request c method path kw)
              (range 0 (max_retries c + 1)) w)
    as (_ & k & ds & Hs & _ & Hpos & _).
  exists k. rewrite Hs, skipn_length_app. split; [reflexivity|].
  intros H. apply Hpos. rewrite length_range. lia.
Qed.

(** Unwrapping a response does not touch the world. *)
Lemma unwrap_list_world {RT : Runtime} m key data w :
  snd (Operations.unwrap_list m key data w) = w.
Proof.
  unfold Operations.unwrap_list, bind, lift.
  destruct (dict_get data key (JList [])); [|reflexivity].
  destruct (iterate a); reflexivity.
Qed.

Lemma unwrap_entity_world {RT : Runtime} m key data w :
  snd (Operations.unwrap_entity m key data w) = w.
Proof.
  unfold Operations.unwrap_entity, bind, lift.
  destruct (dict_get data key data); reflexivity.
Qed.

(** A listing operation leaves the world its [GET] left. *)
Lemma get_then_unwrap_list_world {RT : Runtime}
    (_request : client -> string -> string -> kwargs -> M json)
    c path params m key w :
  snd ((data <- Operations._get _request c path params ;;
        Operations.unwrap_list m key data) w) =
  snd (Operations._get _request c path params w).
Proof.
  unfold bind at 1.
  destruct (Operations._get _request c path params w) as [[data|e] w'];
    [apply unwrap_list_world | reflexivity].
Qed.

Lemma Forall_repeat {A : Type} (P : A -> Prop) (x : A) (k : nat) :
  P x -> Forall P (repeat x k).
Proof. intros H. induction k; cbn; constructor; auto. Qed.

Lemma search_params_limit skill min_rate max_rate name limit offset :
  lookup "limit" (Operations.search_params skill min_rate max_rate name limit offset)
  = Some (JInt (Z.max 1 (Z.min limit 500))).
Proof.
  unfold Operations.search_params.
  destruct skill as [s|]; [destruct (nonempty s)|];
    destruct min_rate; destruct max_rate;
    (destruct name as [nm|]; [destruct (nonempty nm)|]);
    rewrite ?lookup_setitem_other by discriminate; reflexivity.
Qed.

Lemma bookings_params_limit human_id agent_id status limit :
  lookup "limit" (Operations.bookings_params human_id agent_id status limit)
  = Some (JInt limit).
Proof.
  unfold Operations.bookings_params.
  destruct human_id as [h|]; [destruct (nonempty h)|];
    (destruct agent_id as [a|]; [destruct (nonempty a)|]);
    (destruct status as [s|]; [destruct (nonempty s)|]);
    rewrite ?lookup_setitem_other by discriminate; reflexivity.
Qed.

Lemma clamped_max_min (limit : Z) : Z.max 1 (Z.min limit 500) = clamped limit.
Proof.
  unfold clamped.
  destruct (Z.ltb_spec 500 limit); [lia|].
  destruct (Z.ltb_spec limit 1); lia.
Qed.

(** Every request a [GET] with query [params] issues carries the [limit] of
    [params], in both classes. *)
Lemma get_carries_limit {RT : Runtime} c path params v w :
  lookup "limit" params = Some (JInt v) ->
  Forall (carries_limit v)
    (new_requests w (snd (Operations._get Client._request c path (Some params) w))) /\
  Forall (carries_limit v)
    (new_requests w (snd (Operations._get AsyncClient._request c path (Some params) w))) /\
  (0 <= max_retries c ->
   new_requests w (snd (Operations._get Client._request c path (Some params) w)) <> [] /\
   new_requests w (snd (Operations._get AsyncClient._request c path (Some params) w)) <> []).
Proof.
  intros Hl. unfold Operations._get.
  destruct (sync_new_requests c "GET" path
              {| kw_params := Some params; kw_json := None; kw_timeout := None |} w)
    as (k1 & E1 & P1).
  destruct (async_new_requests c "GET" path
              {| kw_params := Some params; kw_json := None; kw_timeout := None |} w)
    as (k2 & E2 & P2).
  rewrite E1, E2. repeat split.
  - apply Forall_repeat. exists params. split; [reflexivity | exact Hl].
  - apply Forall_repeat. exists params. split; [reflexivity | exact Hl].
  - specialize (P1 H). destruct k1; [lia | discriminate].
  - specialize (P2 H). destruct k2; [lia | discriminate].
Qed.

(** C6. Whatever integer [search_humans] is given as [limit], every request
    it issues carries 500 when the limit is above 500, 1 when it is below 1
    and the limit itself otherwise, a value between 1 and 500; with a
    retry count of 0 or more at least one request is issued.  Both
    classes. *)
Theorem search_limit_clamped {RT : Runtime} (c : client)
    (skill : option string) (min_rate max_rate : option float)
    (name : option string) (limit offset : Z) (w : world) :
  1 <= clamped limit <= 500 /\
  Forall (carries_limit (clamped limit))
    (new_requests w
       (snd (Operations.search_humans Client._request c skill min_rate
               max_rate name limit offset w))) /\
  Forall (carries_limit (clamped limit))
    (new_requests w
       (snd (Operations.search_humans AsyncClient._request c skill min_rate
               max_rate name limit offset w))) /\
  (0 <= max_retries c ->
   new_requests w
     (snd (Operations.search_humans Client._request c skill min_rate
             max_rate name limit offset w)) <> [] /\
   new_requests w
     (snd (Operations.search_humans AsyncClient._request c skill min_rate
             max_rate name limit offset w)) <> []).
Proof.
  split.
  - unfold clamped. destruct (Z.ltb_spec 500 limit); [lia|].
    destruct (Z.ltb_spec limit 1); lia.
  - unfold Operations.search_humans. rewrite !get_then_unwrap_list_world.
    apply get_carries_limit.
    rewrite search_params_limit, clamped_max_min. reflexivity.
Qed.

(** C10. [list_bookings], [list_bounties] and [list_conversations] put the
    [limit] they are given into the query as it is: every request they issue
    carries it unchanged, and with a retry count of 0 or more at least one
    request is issued.  Both classes. *)
Theorem listing_limit_unchanged {RT : Runtime} (c : client)
    (human_id agent_id status : option string) (limit : Z) (w : world) :
  (Forall (carries_limit limit)
     (new_requests w
        (snd (Operations.list_bookings Client._request c human_id agent_id
                status limit w))) /\
   Forall (carries_limit limit)
     (new_requests w
        (snd (Operations.list_bookings AsyncClient._request c human_id agent_id
                status limit w))) /\
   (0 <= max_retries c ->
    new_requests w
      (snd (Operations.list_bookings Client._request c human_id agent_id
              status limit w)) <> [] /\
    new_requests w
      (snd (Operations.list_bookings AsyncClient._request c human_id agent_id
              status limit w)) <> [])) /\
  (Forall (carries_limit limit)
     (new_requests w (snd (Operations.list_bounties Client._request c limit w))) /\
   Forall (carries_limit limit)
     (new_requests w (snd (Operations.list_bounties AsyncClient._request c limit w))) /\
   (0 <= max_retries c ->
    new_requests w (snd (Operations.list_bounties Client._request c limit w)) <> [] /\
    new_requests w (snd (Operations.list_bounties AsyncClient._request c limit w)) <> [])) /\
  (Forall (carries_limit limit)
     (new_requests w (snd (Operations.list_conversations Client._request c limit w))) /\
   Forall (carries_limit limit)
     (new_requests w (snd (Operations.list_conversations AsyncClient._request c limit w))) /\
   (0 <= max_retries c ->
    new_requests w (snd (Operations.list_conversations Client._request c limit w)) <> [] /\
    new_requests w (snd (Operations.list_conversations AsyncClient._request c limit w)) <> [])).
Proof.
  unfold Operations.list_bookings, Operations.list_bounties,
    Operations.list_conversations.
  rewrite !get_then_unwrap_list_world.
  split; [|split]; apply get_carries_limit;
    [apply bookings_params_limit | reflexivity | reflexivity].
Qed.

(** ** Unwrapping responses *)







(** ** Round trip through a model *)

Lemma distinct_NoDup (l : list string) : distinct l = true -> NoDup l.
Proof.
  induction l as [|x l IH]; cbn; intros H; constructor.
  - apply andb_prop in H. destruct H as [H _].
    intros Hin. apply negb_true_iff in H.
    assert (existsb (String.eqb x) l = true) as E.
    { apply existsb_exists. exists x. split; [assumption | apply String.eqb_refl]. }
    congruence.
  - apply andb_prop in H. tauto.
Qed.

Lemma lookup_in_keys (k : string) (d : pydict) :
  In k (keys d) -> exists v, lookup k d = Some v.
Proof.
  induction d as [|[k' v'] d IH]; cbn; [tauto|].
  intros [-> | Hin].
  - rewrite String.eqb_refl. eauto.
  - destruct (String.eqb k k'); eauto.
Qed.

Lemma validate_fields_keys (pbn : bool) (kv : pydict) (fs : list field) (inst : instance) :
  validate_fields pbn kv fs = Some inst -> keys inst = map fname fs.
Proof.
  revert inst. induction fs as [|f fs IH]; cbn; intros inst H.
  - now inversion H.
  - destruct (match find_input pbn f kv with
              | Some x => fvalidate f x
              | None => fdefault f
              end); [|discriminate].
    destruct (validate_fields pbn kv fs) as [rest|]; [|discriminate].
    inversion H; subst. cbn. f_equal. now apply IH.
Qed.

Lemma dump_fields_keys (inst : instance) (fs : list field) :
  (forall f, In f fs -> In (fname f) (keys inst)) ->
  keys (dump_fields true false inst fs) = map falias fs.
Proof.
  induction fs as [|f fs IH]; cbn; intros H; [reflexivity|].
  destruct (lookup_in_keys (fname f) inst (H f (or_introl eq_refl))) as [v ->].
  cbn. f_equal. apply IH. auto.
Qed.

(** A dump under the external names has one key per field, in the order of
    the declaration. *)
Lemma model_dump_keys (m : model) (obj : json) (inst : instance) :
  model_validate m obj = Returns inst ->
  keys (model_dump m true false inst) = map falias (fields m).
Proof.
  unfold model_validate, model_dump. intros H.
  destruct obj; try discriminate.
  destruct (validate_fields (populate_by_name m) kv (fields m)) as [i|] eqn:E;
    [|discriminate].
  inversion H; subst. apply dump_fields_keys.
  intros f Hf. rewrite (validate_fields_keys _ _ _ E). now apply in_map.
Qed.

(** No model gives two fields the same wire name, nor the same attribute
    name. *)
Lemma models_distinct_names {RT : Runtime} (m : model) :
  In m all_models ->
  NoDup (map falias (fields m)) /\ NoDup (map fname (fields m)).
Proof.
  unfold all_models. cbn [In].
  intros H; repeat destruct H as [<- | H]; try contradiction;
    split; apply distinct_NoDup; reflexivity.
Qed.

(** C7, as amended.  For every model of models.py, an entity constructed
    from a payload under the internal field names and serialized under the
    external names has one key per field of the model, its external name,
    in the order of the declaration and without repetition.  So every key of
    the payload that is a wire name of the model comes back, together with
    the fields the payload left out; the keys are those of the payload when
    the payload has every field. *)
Theorem round_trip_keys {RT : Runtime} (m : model) (wire out : pydict) :
  In m all_models ->
  round_trip m false wire = Returns out ->
  keys out = map falias (fields m) /\
  NoDup (keys out) /\
  (forall k, In k (keys wire) -> In k (map falias (fields m)) -> In k (keys out)) /\
  (keys wire = map falias (fields m) -> keys out = keys wire).
Proof.
  intros Hm H. unfold round_trip in H.
  destruct (model_validate m (JObj (to_internal m wire))) as [inst|e] eqn:E;
    [|discriminate].
  inversion H; subst out.
  pose proof (model_dump_keys m _ E) as K. rewrite K.
  destruct (models_distinct_names Hm) as [Hnd _].
  repeat split; auto.
Qed.

(** * Further properties *)

(** ** More on one attempt and on the loop *)

Lemma sync_attempt_success {RT : Runtime} c req n w resp data :
  net w (List.length (sent w)) = Returns resp ->
  status_code resp < 400 ->
  resp_json resp = Returns data ->
  Client.attempt_once c req n w = (Returns (Some data), record_request req w).
Proof.
  intros Hnet Hcode Hjson. unfold_attempt. rewrite Hnet. cbn.
  rewrite (proj2 (Z.eqb_neq (status_code resp) 429)) by lia.
  destruct (status_code resp >=? 400) eqn:Hge.
  - apply Z.geb_le in Hge. lia.
  - rewrite Hjson. reflexivity.
Qed.

Lemma sync_attempt_escapes {RT : Runtime} c req n w e :
  escapes (net w (List.length (sent w))) e ->
  Client.attempt_once c req n w = (Throws e, record_request req w).
Proof.
  intros H. unfold_attempt.
  destruct H as [e He | resp e Hcode Hbody Hjson He]; cbn.
  - destruct e; try reflexivity; contradiction.
  - rewrite (proj2 (Z.eqb_neq _ _) Hcode).
    destruct (status_code resp >=? 400) eqn:Hge.
    + destruct Hbody as [Hbody | Hbody]; [apply Z.geb_le in Hge; lia|].
      rewrite (nonempty_true Hbody), Hjson.
      destruct e; try reflexivity; contradiction.
    + rewrite Hjson. destruct e; try reflexivity; contradiction.
Qed.

Lemma sync_attempt_again {RT : Runtime} c req n w d :
  0 <= n < max_retries c ->
  asks_again n (net w (List.length (sent w))) d ->
  Client.attempt_once c req n w =
  (Returns None, record_sleep d (record_request req w)).
Proof.
  intros [H0 Hn] H. apply Z.ltb_lt in Hn.
  remember (net w (List.length (sent w))) as o eqn:Ho.
  destruct H as [resp d Hcode Hd Hs | o msg Hfail].
  - rewrite (@sync_attempt_429 _ c req n w resp d (eq_sym Ho) Hcode Hd), Hn.
    rewrite (@sleepable_time_sleep d Hs). reflexivity.
  - subst o. rewrite (@sync_attempt_failure _ c req n w msg H0 Hfail), Hn.
    reflexivity.
Qed.

(** [k] attempts in a row that ask for another one take the loop [k]
    attempts further, [k] requests and [k] sleeps later. *)
Lemma sync_loop_prefix {RT : Runtime} c req (ds : list float) :
  forall n w,
    0 <= n ->
    n + Z.of_nat (List.length ds) <= max_retries c ->
    (forall i, (i < List.length ds)%nat ->
               asks_again (n + Z.of_nat i) (upcoming w i) (nth i ds 0%float)) ->
    Client.request_loop c req (range n (max_retries c + 1)) w =
    Client.request_loop c req
      (range (n + Z.of_nat (List.length ds)) (max_retries c + 1))
      (after_retries req (List.length ds) ds w).
Proof.
  induction ds as [|d ds IH]; intros n w Hn0 Hn Hall.
  - cbn [List.length]. replace (n + Z.of_nat 0) with n by lia.
    unfold after_retries. cbn [repeat]. rewrite !app_nil_r.
    destruct w; reflexivity.
  - cbn [List.length] in *.
    rewrite (@range_cons n (max_retries c + 1)) by lia.
    rewrite sync_loop_cons.
    assert (asks_again n (net w (List.length (sent w))) d) as H0.
    { specialize (Hall 0%nat ltac:(lia)). unfold upcoming in Hall. cbn in Hall.
      now rewrite Nat.add_0_r, Z.add_0_r in Hall. }
    rewrite (@sync_attempt_again _ c req n w d ltac:(lia) H0).
    rewrite IH.
    + replace (n + 1 + Z.of_nat (List.length ds))
        with (n + Z.of_nat (S (List.length ds))) by lia.
      f_equal. unfold after_retries, record_sleep, record_request. cbn.
      rewrite <- !app_assoc. reflexivity.
    + lia.
    + lia.
    + intros i Hi. specialize (Hall (S i) ltac:(lia)).
      unfold upcoming in *. cbn [nth] in Hall. cbn.
      rewrite length_app. cbn [List.length].
      replace (List.length (sent w) + 1 + i)%nat
        with (List.length (sent w) + S i)%nat by lia.
      replace (n + 1 + Z.of_nat i) with (n + Z.of_nat (S i)) by lia.
      exact Hall.
Qed.

Lemma async_attempt_success {RT : Runtime} c req n w resp data :
  net w (List.length (sent w)) = Returns resp ->
  status_code resp < 400 ->
  resp_json resp = Returns data ->
  AsyncClient.attempt_once c req n w = (Returns (Some data), record_request req w).
Proof.
  intros Hnet Hcode Hjson. unfold_attempt. rewrite Hnet. cbn.
  rewrite (proj2 (Z.eqb_neq (status_code resp) 429)) by lia.
  destruct (status_code resp >=? 400) eqn:Hge.
  - apply Z.geb_le in Hge. lia.
  - rewrite Hjson. reflexivity.
Qed.

Lemma async_attempt_escapes {RT : Runtime} c req n w e :
  escapes (net w (List.length (sent w))) e ->
  AsyncClient.attempt_once c req n w = (Throws e, record_request req w).
Proof.
  intros H. unfold_attempt.
  destruct H as [e He | resp e Hcode Hbody Hjson He]; cbn.
  - destruct e; try reflexivity; contradiction.
  - rewrite (proj2 (Z.eqb_neq _ _) Hcode).
    destruct (status_code resp >=? 400) eqn:Hge.
    + destruct Hbody as [Hbody | Hbody]; [apply Z.geb_le in Hge; lia|].
      rewrite (nonempty_true Hbody), Hjson.
      destruct e; try reflexivity; contradiction.
    + rewrite Hjson. destruct e; try reflexivity; contradiction.
Qed.

Lemma async_attempt_again {RT : Runtime} c req n w d :
  0 <= n < max_retries c ->
  asks_again n (net w (List.length (sent w))) d ->
  AsyncClient.attempt_once c req n w =
  (Returns None, record_sleep d (record_request req w)).
Proof.
  intros [H0 Hn] H. apply Z.ltb_lt in Hn.
  remember (net w (List.length (sent w))) as o eqn:Ho.
  destruct H as [resp d Hcode Hd Hs | o msg Hfail].
  - rewrite (@async_attempt_429 _ c req n w resp d (eq_sym Ho) Hcode Hd), Hn.
    rewrite (@sleepable_asyncio_sleep _ d Hs). reflexivity.
  - subst o. rewrite (@async_attempt_failure _ c req n w msg H0 Hfail), Hn.
    reflexivity.
Qed.

(** [k] attempts in a row that ask for another one take the loop [k]
    attempts further, [k] requests and [k] sleeps later. *)
Lemma async_loop_prefix {RT : Runtime} c req (ds : list float) :
  forall n w,
    0 <= n ->
    n + Z.of_nat (List.length ds) <= max_retries c ->
    (forall i, (i < List.length ds)%nat ->
               asks_again (n + Z.of_nat i) (upcoming w i) (nth i ds 0%float)) ->
    AsyncClient.request_loop c req (range n (max_retries c + 1)) w =
    AsyncClient.request_loop c req
      (range (n + Z.of_nat (List.length ds)) (max_retries c + 1))
      (after_retries req (List.length ds) ds w).
Proof.
  induction ds as [|d ds IH]; intros n w Hn0 Hn Hall.
  - cbn [List.length]. replace (n + Z.of_nat 0) with n by lia.
    unfold after_retries. cbn [repeat]. rewrite !app_nil_r.
    destruct w; reflexivity.
  - cbn [List.length] in *.
    rewrite (@range_cons n (max_retries c + 1)) by lia.
    rewrite async_loop_cons.
    assert (asks_again n (net w (List.length (sent w))) d) as H0.
    { specialize (Hall 0%nat ltac:(lia)). unfold upcoming in Hall. cbn in Hall.
      now rewrite Nat.add_0_r, Z.add_0_r in Hall. }
    rewrite (@async_attempt_again _ c req n w d ltac:(lia) H0).
    rewrite IH.
    + replace (n + 1 + Z.of_nat (List.length ds))
        with (n + Z.of_nat (S (List.length ds))) by lia.
      f_equal. unfold after_retries, record_sleep, record_request. cbn.
      rewrite <- !app_assoc. reflexivity.
    + lia.
    + lia.
    + intros i Hi. specialize (Hall (S i) ltac:(lia)).
      unfold upcoming in *. cbn [nth] in Hall. cbn.
      rewrite length_app. cbn [List.length].
      replace (List.length (sent w) + 1 + i)%nat
        with (List.length (sent w) + S i)%nat by lia.
      replace (n + 1 + Z.of_nat i) with (n + Z.of_nat (S i)) by lia.
      exact Hall.
Qed.


Lemma sync_attempt_returns {RT : Runtime} c req n w data w1 :
  Client.attempt_once c req n w = (Returns (Some data), w1) ->
  exists resp,
    net w (List.length (sent w)) = Returns resp /\
    status_code resp < 400 /\
    resp_json resp = Returns data.
Proof.
  unfold_attempt.
  unfold Client.retry_after_of, py_float, dict_get.
  split_attempt; intros H; try discriminate; inversion H; subst.
  eexists. split; [reflexivity|]. split; [|assumption].
  match goal with
  | Hb : (?a >=? ?b) = false |- _ =>
      destruct (Z.geb_spec a b); [discriminate | lia]
  end.
Qed.

Lemma sync_attempt_status {RT : Runtime} c req n w e w1 sc :
  library_transport w ->
  Client.attempt_once c req n w = (Throws e, w1) ->
  status_code_of e = Some sc ->
  exists resp,
    net w (List.length (sent w)) = Returns resp /\
    status_code resp = sc /\ 400 <= sc.
Proof.
  unfold_attempt. intros Hlib. specialize (Hlib (List.length (sent w))).
  revert Hlib.
  unfold Client.retry_after_of, py_float, dict_get, library_exception.
  split_attempt; intros Hlib H Hsc; try contradiction; try discriminate;
    inversion H; subst; cbn in Hsc; try discriminate; inversion Hsc; subst;
    repeat match goal with
           | Hb : (_ =? _) = true |- _ => apply Z.eqb_eq in Hb
           | Hb : (_ >=? _) = true |- _ => apply Z.geb_le in Hb
           end;
    (eexists; split; [reflexivity|]; split; lia).
Qed.

Lemma sync_loop_returns {RT : Runtime} c req attempts :
  forall w data,
    fst (Client.request_loop c req attempts w) = Returns data ->
    exists resp,
      last_outcome (snd (Client.request_loop c req attempts w)) = Returns resp /\
      status_code resp < 400 /\
      resp_json resp = Returns data.
Proof.
  induction attempts as [|n attempts IH]; intros w data; [discriminate|].
  rewrite sync_loop_cons.
  pose proof (sync_attempt_effect c req n w) as Heff.
  destruct (Client.attempt_once c req n w) as [[[data'|]|e] w1] eqn:E;
    destruct Heff as (Hnet & Hsent & _); cbn [fst snd] in *.
  - intros H. inversion H; subst data'.
    destruct (sync_attempt_returns _ _ _ _ E) as (resp & Hr & Hc & Hj).
    exists resp. unfold last_outcome. rewrite Hnet, Hsent, length_app. cbn.
    rewrite Nat.add_1_r. cbn. auto.
  - intros H. destruct (IH w1 data H) as (resp & Hr & Hc & Hj). eauto.
  - discriminate.
Qed.

Lemma sync_loop_status {RT : Runtime} c req attempts :
  forall w e sc,
    library_transport w ->
    fst (Client.request_loop c req attempts w) = Throws e ->
    status_code_of e = Some sc ->
    exists resp,
      last_outcome (snd (Client.request_loop c req attempts w)) = Returns resp /\
      status_code resp = sc /\ 400 <= sc.
Proof.
  induction attempts as [|n attempts IH]; intros w e sc Hlib.
  - cbn. intros H Hsc. inversion H; subst. discriminate.
  - rewrite sync_loop_cons.
    pose proof (sync_attempt_effect c req n w) as Heff.
    destruct (Client.attempt_once c req n w) as [[[data'|]|e'] w1] eqn:E;
      destruct Heff as (Hnet & Hsent & _); cbn [fst snd] in *.
    + discriminate.
    + intros H Hsc. apply (IH w1 e sc); auto.
      unfold library_transport in *. now rewrite Hnet.
    + intros H Hsc. inversion H; subst e'.
      destruct (sync_attempt_status _ _ _ Hlib E Hsc) as (resp & Hr & Hc & Hge).
      exists resp. unfold last_outcome. rewrite Hnet, Hsent, length_app. cbn.
      rewrite Nat.add_1_r. cbn. auto.
Qed.


Lemma async_attempt_returns {RT : Runtime} c req n w data w1 :
  AsyncClient.attempt_once c req n w = (Returns (Some data), w1) ->
  exists resp,
    net w (List.length (sent w)) = Returns resp /\
    status_code resp < 400 /\
    resp_json resp = Returns data.
Proof.
  unfold_attempt.
  unfold AsyncClient.retry_after_of, py_float, dict_get.
  split_attempt; intros H; try discriminate; inversion H; subst.
  eexists. split; [reflexivity|]. split; [|assumption].
  match goal with
  | Hb : (?a >=? ?b) = false |- _ =>
      destruct (Z.geb_spec a b); [discriminate | lia]
  end.
Qed.

Lemma async_attempt_status {RT : Runtime} c req n w e w1 sc :
  library_transport w ->
  AsyncClient.attempt_once c req n w = (Throws e, w1) ->
  status_code_of e = Some sc ->
  exists resp,
    net w (List.length (sent w)) = Returns resp /\
    status_code resp = sc /\ 400 <= sc.
Proof.
  unfold_attempt. intros Hlib. specialize (Hlib (List.length (sent w))).
  revert Hlib.
  unfold AsyncClient.retry_after_of, py_float, dict_get, library_exception.
  split_attempt; intros Hlib H Hsc; try contradiction; try discriminate;
    inversion H; subst; cbn in Hsc; try discriminate; inversion Hsc; subst;
    repeat match goal with
           | Hb : (_ =? _) = true |- _ => apply Z.eqb_eq in Hb
           | Hb : (_ >=? _) = true |- _ => apply Z.geb_le in Hb
           end;
    (eexists; split; [reflexivity|]; split; lia).
Qed.

Lemma async_loop_returns {RT : Runtime} c req attempts :
  forall w data,
    fst (AsyncClient.request_loop c req attempts w) = Returns data ->
    exists resp,
      last_outcome (snd (AsyncClient.request_loop c req attempts w)) = Returns resp /\
      status_code resp < 400 /\
      resp_json resp = Returns data.
Proof.
  induction attempts as [|n attempts IH]; intros w data; [discriminate|].
  rewrite async_loop_cons.
  pose proof (async_attempt_effect c req n w) as Heff.
  destruct (AsyncClient.attempt_once c req n w) as [[[data'|]|e] w1] eqn:E;
    destruct Heff as (Hnet & Hsent & _); cbn [fst snd] in *.
  - intros H. inversion H; subst data'.
    destruct (async_attempt_returns _ _ _ _ E) as (resp & Hr & Hc & Hj).
    exists resp. unfold last_outcome. rewrite Hnet, Hsent, length_app. cbn.
    rewrite Nat.add_1_r. cbn. auto.
  - intros H. destruct (IH w1 data H) as (resp & Hr & Hc & Hj). eauto.
  - discriminate.
Qed.

Lemma async_loop_status {RT : Runtime} c req attempts :
  forall w e sc,
    library_transport w ->
    fst (AsyncClient.request_loop c req attempts w) = Throws e ->
    status_code_of e = Some sc ->
    exists resp,
      last_outcome (snd (AsyncClient.request_loop c req attempts w)) = Returns resp /\
      status_code resp = sc /\ 400 <= sc.
Proof.
  induction attempts as [|n attempts IH]; intros w e sc Hlib.
  - cbn. intros H Hsc. inversion H; subst. discriminate.
  - rewrite async_loop_cons.
    pose proof (async_attempt_effect c req n w) as Heff.
    destruct (AsyncClient.attempt_once c req n w) as [[[data'|]|e'] w1] eqn:E;
      destruct Heff as (Hnet & Hsent & _); cbn [fst snd] in *.
    + discriminate.
    + intros H Hsc. apply (IH w1 e sc); auto.
      unfold library_transport in *. now rewrite Hnet.
    + intros H Hsc. inversion H; subst e'.
      destruct (async_attempt_status _ _ _ Hlib E Hsc) as (resp & Hr & Hc & Hge).
      exists resp. unfold last_outcome. rewrite Hnet, Hsent, length_app. cbn.
      rewrite Nat.add_1_r. cbn. auto.
Qed.

(** ** Ends of a call *)

(** X1. A response with a status below 400 ends the call at the attempt
    that receives it: [_request] returns what [json()] gives, after one
    request and without a sleep, whatever attempts remain.  Both classes. *)
Theorem success_returns_body {RT : Runtime} (c : client) (req : request)
    (n : Z) (rest : list Z) (w : world) (resp : response) (data : json) :
  net w (List.length (sent w)) = Returns resp ->
  status_code resp < 400 ->
  resp_json resp = Returns data ->
  Client.request_loop c req (n :: rest) w = (Returns data, record_request req w) /\
  AsyncClient.request_loop c req (n :: rest) w = (Returns data, record_request req w).
Proof.
  intros Hnet Hcode Hjson.
  rewrite sync_loop_cons, async_loop_cons.
  rewrite (@sync_attempt_success _ c req n w resp data Hnet Hcode Hjson),
    (@async_attempt_success _ c req n w resp data Hnet Hcode Hjson).
  split; reflexivity.
Qed.

(** X2. Only the transport's own exception class is retried: any other
    exception raised by the transport call, or by [json()] where [_request]
    calls it, leaves [_request] at that attempt, unchanged, after one request
    and without a sleep.  Both classes. *)
Theorem uncaught_exception_ends_call {RT : Runtime} (c : client) (req : request)
    (n : Z) (rest : list Z) (w : world) (e : exception) :
  escapes (net w (List.length (sent w))) e ->
  Client.request_loop c req (n :: rest) w = (Throws e, record_request req w) /\
  AsyncClient.request_loop c req (n :: rest) w = (Throws e, record_request req w).
Proof.
  intros H. rewrite sync_loop_cons, async_loop_cons.
  rewrite (@sync_attempt_escapes _ c req n w e H),
    (@async_attempt_escapes _ c req n w e H).
  split; reflexivity.
Qed.

Lemma after_retries_next (req : request) (k : nat) (ds : list float) (w : world) :
  record_request req (after_retries req k ds w) = after_retries req (S k) ds w.
Proof.
  unfold record_request, after_retries. cbn [net sent slept].
  rewrite <- app_assoc, <- repeat_cons. reflexivity.
Qed.

Lemma upcoming_after_retries (req : request) (k : nat) (ds : list float) (w : world) :
  net (after_retries req k ds w)
    (List.length (sent (after_retries req k ds w))) = upcoming w k.
Proof.
  unfold after_retries, upcoming. cbn [net sent].
  now rewrite length_app, repeat_length.
Qed.

(** X3. When the first [k <= max_retries] attempts meet a 429 that asks for
    a wait from 0 to [clock_range] seconds, or a transport failure, and the
    next one a response below 400, [_request] returns the body of that
    response after [k + 1] requests and the [k] sleeps the failed attempts
    asked for, in order.  Both classes. *)
Theorem retries_then_success {RT : Runtime} (c : client) (method path : string)
    (kw : kwargs) (w : world) (ds : list float) (resp : response) (data : json) :
  Z.of_nat (List.length ds) <= max_retries c ->
  (forall i, (i < List.length ds)%nat ->
             asks_again (Z.of_nat i) (upcoming w i) (nth i ds 0%float)) ->
  upcoming w (List.length ds) = Returns resp ->
  status_code resp < 400 ->
  resp_json resp = Returns data ->
  Client._request c method path kw w =
    (Returns data,
     after_retries (Client.build_request c method path kw) (S (List.length ds)) ds w) /\
  AsyncClient._request c method path kw w =
    (Returns data,
     after_retries (AsyncClient.build_request c method path kw) (S (List.length ds)) ds w).
Proof.
  intros Hk Hall Hnext Hcode Hjson.
  unfold Client._request, AsyncClient._request.
  rewrite (@sync_loop_prefix _ c _ ds 0 w) by first [lia | cbn; auto].
  rewrite (@async_loop_prefix _ c _ ds 0 w) by first [lia | cbn; auto].
  cbn [Z.add]. rewrite !(@range_cons (Z.of_nat (List.length ds))) by lia.
  rewrite sync_loop_cons, async_loop_cons.
  erewrite sync_attempt_success, async_attempt_success;
    try (rewrite upcoming_after_retries; eassumption); try eassumption.
  rewrite !after_retries_next. split; reflexivity.
Qed.

(** X4. When every attempt but the last meets a 429 that asks for a wait
    from 0 to [clock_range] seconds, or a transport failure, and the last
    of the [max_retries + 1] meets a 429, [_request] raises
    [RateLimitError] with the value of that last response, after exactly
    [max_retries + 1] requests and [max_retries] sleeps.  Both classes. *)
Theorem exhausted_by_rate_limit {RT : Runtime} (c : client) (method path : string)
    (kw : kwargs) (w : world) (ds : list float) (resp : response) (d : float) :
  Z.of_nat (List.length ds) = max_retries c ->
  (forall i, (i < List.length ds)%nat ->
             asks_again (Z.of_nat i) (upcoming w i) (nth i ds 0%float)) ->
  upcoming w (List.length ds) = Returns resp ->
  status_code resp = 429 ->
  retry_after_seconds resp d ->
  Client._request c method path kw w =
    (Throws (RateLimitError d),
     after_retries (Client.build_request c method path kw) (S (List.length ds)) ds w) /\
  AsyncClient._request c method path kw w =
    (Throws (RateLimitError d),
     after_retries (AsyncClient.build_request c method path kw) (S (List.length ds)) ds w).
Proof.
  intros Hk Hall Hnext Hcode Hd.
  unfold Client._request, AsyncClient._request.
  rewrite (@sync_loop_prefix _ c _ ds 0 w) by first [lia | cbn; auto].
  rewrite (@async_loop_prefix _ c _ ds 0 w) by first [lia | cbn; auto].
  cbn [Z.add]. rewrite !(@range_cons (Z.of_nat (List.length ds))) by lia.
  rewrite sync_loop_cons, async_loop_cons.
  erewrite sync_attempt_429, async_attempt_429;
    try (rewrite upcoming_after_retries; eassumption); try eassumption.
  rewrite Hk, Z.ltb_irrefl, !after_retries_next. split; reflexivity.
Qed.

(** X5. When every attempt but the last meets a 429 that asks for a wait
    from 0 to [clock_range] seconds, or a transport failure, and the last
    of the [max_retries + 1] meets a transport failure, [_request] raises
    [RentAHumanError("Request failed: ...")] with the text of that last
    failure and no status code, after exactly [max_retries + 1] requests and
    [max_retries] sleeps.  Both classes. *)
Theorem exhausted_by_transport_failure {RT : Runtime} (c : client)
    (method path : string) (kw : kwargs) (w : world) (ds : list float)
    (msg : string) :
  Z.of_nat (List.length ds) = max_retries c ->
  (forall i, (i < List.length ds)%nat ->
             asks_again (Z.of_nat i) (upcoming w i) (nth i ds 0%float)) ->
  transport_failure (upcoming w (List.length ds)) msg ->
  Client._request c method path kw w =
    (Throws (RentAHumanError (JStr ("Request failed: " ++ msg)) None),
     after_retries (Client.build_request c method path kw) (S (List.length ds)) ds w) /\
  AsyncClient._request c method path kw w =
    (Throws (RentAHumanError (JStr ("Request failed: " ++ msg)) None),
     after_retries (AsyncClient.build_request c method path kw) (S (List.length ds)) ds w).
Proof.
  intros Hk Hall Hfail.
  unfold Client._request, AsyncClient._request.
  rewrite (@sync_loop_prefix _ c _ ds 0 w) by first [lia | cbn; auto].
  rewrite (@async_loop_prefix _ c _ ds 0 w) by first [lia | cbn; auto].
  cbn [Z.add]. rewrite !(@range_cons (Z.of_nat (List.length ds))) by lia.
  rewrite sync_loop_cons, async_loop_cons.
  erewrite sync_attempt_failure, async_attempt_failure;
    try (rewrite upcoming_after_retries; eassumption); try lia.
  rewrite Hk, Z.ltb_irrefl, !after_retries_next. split; reflexivity.
Qed.

Lemma same_course_refl (w : world) : same_course w w.
Proof. repeat split. Qed.

(** The non-blocking class ends a call as the blocking class does, unless
    the blocking class ends it with a built-in exception. *)
Lemma request_result_agree {RT : Runtime} c method path kw w :
  fst (AsyncClient._request c method path kw w) =
  fst (Client._request c method path kw w) \/
  exists e, fst (Client._request c method path kw w) = Throws (Builtin e).
Proof.
  unfold Client._request, AsyncClient._request.
  destruct (@loop_agree_unless _ c (Client.build_request c method path kw)
              (AsyncClient.build_request c method path kw)
              (range 0 (max_retries c + 1)) w w (same_course_refl w))
    as [[Hres _] | (k & e & _ & He)].
  - apply range_nonneg. lia.
  - now left.
  - right. eauto.
Qed.


(** X7. With a negative retry count the loop of [_request] has no pass: the
    call issues no request, sleeps never and raises
    [RentAHumanError("Request failed after <max_retries> retries")] without a
    status code.  Both classes. *)
Theorem negative_retries_no_request {RT : Runtime} (c : client)
    (method path : string) (kw : kwargs) (w : world) :
  max_retries c < 0 ->
  Client._request c method path kw w =
    (Throws (RentAHumanError
               (JStr ("Request failed after " ++ str_of_int (max_retries c) ++ " retries"))
               None), w) /\
  AsyncClient._request c method path kw w =
    (Throws (RentAHumanError
               (JStr ("Request failed after " ++ str_of_int (max_retries c) ++ " retries"))
               None), w).
Proof.
  intros Hmax. unfold Client._request, AsyncClient._request.
  rewrite (@range_nil 0 (max_retries c + 1)) by lia.
  split; reflexivity.
Qed.

(** X8. Every request of one call of [_request] is the same: the method
    given, the URL [base_url + path] and the keyword arguments given, to
    which the blocking class adds [timeout=self.timeout] unless the caller
    gave one and the non-blocking class adds nothing. *)
Theorem retries_resend_same_request {RT : Runtime} (c : client)
    (method path : string) (kw : kwargs) (w : world) :
  Forall (fun r =>
            req_method r = method /\
            req_url r = base_url c ++ path /\
            kw_params (req_kwargs r) = kw_params kw /\
            kw_json (req_kwargs r) = kw_json kw /\
            kw_timeout (req_kwargs r) =
              Some (match kw_timeout kw with Some t => t | None => timeout c end))
    (new_requests w (snd (Client._request c method path kw w))) /\
  Forall (fun r =>
            req_method r = method /\
            req_url r = base_url c ++ path /\
            req_kwargs r = kw)
    (new_requests w (snd (AsyncClient._request c method path kw w))).
Proof.
  destruct (sync_new_requests c method path kw w) as (k1 & E1 & _).
  destruct (async_new_requests c method path kw w) as (k2 & E2 & _).
  rewrite E1, E2. split; apply Forall_repeat; cbn; repeat split.
  destruct (kw_timeout kw); reflexivity.
Qed.

(** X9. [_request] returns a value only from a response with a status below
    400: when a call returns [data], the last request it issued was answered
    by such a response, and [data] is what its [json()] gave.  Both
    classes. *)
Theorem returns_only_success_body {RT : Runtime} (c : client)
    (method path : string) (kw : kwargs) (w : world) (data : json) :
  fst (Client._request c method path kw w) = Returns data ->
  (exists resp,
      last_outcome (snd (Client._request c method path kw w)) = Returns resp /\
      status_code resp < 400 /\
      resp_json resp = Returns data) /\
  fst (AsyncClient._request c method path kw w) = Returns data /\
  (exists resp,
      last_outcome (snd (AsyncClient._request c method path kw w)) = Returns resp /\
      status_code resp < 400 /\
      resp_json resp = Returns data).
Proof.
  intros H.
  destruct (request_result_agree c method path kw w) as [Ha | [e He]];
    [|congruence].
  rewrite H in Ha. repeat split; auto.
  - apply sync_loop_returns. exact H.
  - apply async_loop_returns. exact Ha.
Qed.

(** X10. The status code an error of [_request] carries is the status of the
    last response received, and it is 400 or more: when the transport raises
    library exceptions only and a call raises an error with
    [status_code = sc], the last request it issued was answered with status
    [sc >= 400].  Both classes. *)
Theorem error_status_is_response_status {RT : Runtime} (c : client)
    (method path : string) (kw : kwargs) (w : world) (e : exception) (sc : Z) :
  library_transport w ->
  fst (Client._request c method path kw w) = Throws e ->
  status_code_of e = Some sc ->
  (exists resp,
      last_outcome (snd (Client._request c method path kw w)) = Returns resp /\
      status_code resp = sc /\ 400 <= sc) /\
  fst (AsyncClient._request c method path kw w) = Throws e /\
  (exists resp,
      last_outcome (snd (AsyncClient._request c method path kw w)) = Returns resp /\
      status_code resp = sc /\ 400 <= sc).
Proof.
  intros Hlib H Hsc.
  destruct (request_result_agree c method path kw w) as [Ha | [b Hb]];
    [|rewrite H in Hb; inversion Hb; subst e; discriminate].
  rewrite H in Ha. repeat split; auto.
  - apply (@sync_loop_status _ c _ _ w e sc Hlib H Hsc).
  - apply (@async_loop_status _ c _ _ w e sc Hlib Ha Hsc).
Qed.

(** ** The constructor and the sanitizer *)

Lemma rstrip_slash_decompose (s : string) :
  exists k, s = rstrip_slash s ++ slashes k.
Proof.
  induction s as [|ch s [k IH]]; [exists 0%nat; reflexivity|].
  cbn [rstrip_slash]. destruct (rstrip_slash s) as [|ch' r] eqn:E.
  - cbn in IH. subst s. destruct (Ascii.eqb_spec ch "/") as [->|Hne].
    + exists (S k). reflexivity.
    + exists k. reflexivity.
  - exists k. cbn. now rewrite IH at 1.
Qed.

Lemma rstrip_slash_last (s : string) : last_char (rstrip_slash s) <> Some "/"%char.
Proof.
  induction s as [|ch s IH]; [discriminate|].
  cbn [rstrip_slash]. destruct (rstrip_slash s) as [|ch' r] eqn:E.
  - destruct (Ascii.eqb_spec ch "/") as [->|Hne]; cbn; congruence.
  - exact IH.
Qed.

Lemma rstrip_slash_trailing (s : string) :
  rstrip_slash (s ++ "/") = rstrip_slash s.
Proof.
  induction s as [|ch s IH]; [reflexivity|].
  cbn [append rstrip_slash]. now rewrite IH.
Qed.

(** X11. The constructor strips every trailing slash of [base_url]: the
    stored URL does not end in a slash, the given one is the stored one
    followed by slashes only, and giving one slash more makes the same
    client. *)
Theorem init_strips_trailing_slashes (api_key : option string) (base : string)
    (tmo retries : Z) :
  last_char (base_url (init api_key base tmo retries)) <> Some "/"%char /\
  (exists k, base = base_url (init api_key base tmo retries) ++ slashes k) /\
  init api_key (base ++ "/") tmo retries = init api_key base tmo retries.
Proof.
  unfold init. cbn [base_url]. split; [apply rstrip_slash_last|].
  split; [apply rstrip_slash_decompose|].
  now rewrite rstrip_slash_trailing.
Qed.

(** X12. [_sanitize_path_param] is exact and has no effect: a value that is
    empty or contains a slash, a backslash or two dots in a row is refused
    with the validation error, every other value is returned as it is, and
    in both cases the world is left alone. *)
Theorem sanitizer_exact {RT : Runtime} (value : string) (w : world) :
  (unsafe_path_param value /\
   _sanitize_path_param value w = (Throws (invalid_path_param value), w)) \/
  (~ unsafe_path_param value /\
   _sanitize_path_param value w = (Returns value, w)).
Proof.
  destruct (sanitize_decides value w) as [E | E]; [left | right];
    (split; [|exact E]).
  - unfold _sanitize_path_param in E.
    destruct (negb (nonempty value) || contains "/" value || contains "\" value
              || contains ".." value)%bool eqn:B; [|discriminate].
    rewrite !orb_true_iff in B. unfold unsafe_path_param.
    rewrite <- !contains_occurs.
    destruct B as [[[B | B] | B] | B]; auto.
    destruct value; [auto | discriminate].
  - intros H. rewrite (sanitize_unsafe w H) in E. discriminate.
Qed.

(** ** Queries and bodies of the operations *)

(** Every request a [GET] with query [params] issues has that query, in both
    classes. *)
Lemma get_has_query {RT : Runtime} c path params w :
  Forall (has_query params)
    (new_requests w (snd (Operations._get Client._request c path (Some params) w))) /\
  Forall (has_query params)
    (new_requests w (snd (Operations._get AsyncClient._request c path (Some params) w))).
Proof.
  unfold Operations._get.
  destruct (sync_new_requests c "GET" path
              {| kw_params := Some params; kw_json := None; kw_timeout := None |} w)
    as (k1 & E1 & _).
  destruct (async_new_requests c "GET" path
              {| kw_params := Some params; kw_json := None; kw_timeout := None |} w)
    as (k2 & E2 & _).
  rewrite E1, E2. split; apply Forall_repeat; reflexivity.
Qed.

Lemma search_params_spelled skill min_rate max_rate name limit offset :
  Operations.search_params skill min_rate max_rate name limit offset =
  ([("limit", JInt (Z.max 1 (Z.min limit 500))); ("offset", JInt (Z.max 0 offset))]
   ++ optional_param "skill" (given_str skill)
   ++ optional_param "minRate" (option_map JFloat min_rate)
   ++ optional_param "maxRate" (option_map JFloat max_rate)
   ++ optional_param "name" (given_str name))%list.
Proof.
  unfold Operations.search_params.
  destruct skill as [[|? ?]|], min_rate, max_rate, name as [[|? ?]|]; reflexivity.
Qed.

Lemma bookings_params_spelled human_id agent_id status limit :
  Operations.bookings_params human_id agent_id status limit =
  ([("limit", JInt limit)]
   ++ optional_param "humanId" (given_str human_id)
   ++ optional_param "agentId" (given_str agent_id)
   ++ optional_param "status" (given_str status))%list.
Proof.
  unfold Operations.bookings_params.
  destruct human_id as [[|? ?]|], agent_id as [[|? ?]|], status as [[|? ?]|];
    reflexivity.
Qed.

(** X13. The query of [search_humans] is [limit] and [offset], then one
    entry for each filter that is given, in the order [skill], [minRate],
    [maxRate], [name], and nothing else: a string filter that is [None] or
    empty is left out, a rate that is not [None] is sent even when it is 0,
    and a negative [offset] is sent as 0.  Every request of the call has
    this query.  Both classes. *)
Theorem search_query_has_given_filters_only {RT : Runtime} (c : client)
    (skill : option string) (min_rate max_rate : option float)
    (name : option string) (limit offset : Z) (w : world) :
  Forall (has_query
            ([("limit", JInt (Z.max 1 (Z.min limit 500)));
              ("offset", JInt (if offset <? 0 then 0 else offset))]
             ++ optional_param "skill" (given_str skill)
             ++ optional_param "minRate" (option_map JFloat min_rate)
             ++ optional_param "maxRate" (option_map JFloat max_rate)
             ++ optional_param "name" (given_str name))%list)
    (new_requests w
       (snd (Operations.search_humans Client._request c skill min_rate
               max_rate name limit offset w))) /\
  Forall (has_query
            ([("limit", JInt (Z.max 1 (Z.min limit 500)));
              ("offset", JInt (if offset <? 0 then 0 else offset))]
             ++ optional_param "skill" (given_str skill)
             ++ optional_param "minRate" (option_map JFloat min_rate)
             ++ optional_param "maxRate" (option_map JFloat max_rate)
             ++ optional_param "name" (given_str name))%list)
    (new_requests w
       (snd (Operations.search_humans AsyncClient._request c skill min_rate
               max_rate name limit offset w))).
Proof.
  unfold Operations.search_humans. rewrite !get_then_unwrap_list_world.
  rewrite search_params_spelled.
  replace (Z.max 0 offset) with (if offset <? 0 then 0 else offset)
    by (destruct (Z.ltb_spec offset 0); lia).
  apply get_has_query.
Qed.

(** X14. The query of [list_bookings] is [limit], then one entry for each
    of [humanId], [agentId] and [status] that is given (neither [None] nor
    empty), in this order, and nothing else.  Every request of the call has
    this query.  Both classes. *)
Theorem bookings_query_has_given_filters_only {RT : Runtime} (c : client)
    (human_id agent_id status : option string) (limit : Z) (w : world) :
  Forall (has_query
            ([("limit", JInt limit)]
             ++ optional_param "humanId" (given_str human_id)
             ++ optional_param "agentId" (given_str agent_id)
             ++ optional_param "status" (given_str status))%list)
    (new_requests w
       (snd (Operations.list_bookings Client._request c human_id agent_id
               status limit w))) /\
  Forall (has_query
            ([("limit", JInt limit)]
             ++ optional_param "humanId" (given_str human_id)
             ++ optional_param "agentId" (given_str agent_id)
             ++ optional_param "status" (given_str status))%list)
    (new_requests w
       (snd (Operations.list_bookings AsyncClient._request c human_id agent_id
               status limit w))).
Proof.
  unfold Operations.list_bookings. rewrite !get_then_unwrap_list_world.
  rewrite bookings_params_spelled. apply get_has_query.
Qed.

(** ** Listing operations *)

Lemma model_validate_throws (m : model) (x : json) (e : exception) :
  model_validate m x = Throws e -> e = Builtin ValidationError.
Proof.
  unfold model_validate. destruct x; try (intros H; now inversion H).
  destruct (validate_fields (populate_by_name m) kv (fields m));
    intros H; now inversion H.
Qed.

Lemma validate_each_in_order (m : model) (items : list json) :
  validates_in_order m items (validate_each m items).
Proof.
  unfold validates_in_order. induction items as [|x items [IH1 IH2]].
  - cbn. split.
    + intros l. split; intros H.
      * inversion H. constructor.
      * inversion H. reflexivity.
    + intros H. inversion H.
  - cbn [validate_each]. destruct (model_validate m x) as [i|e] eqn:Ex.
    + split.
      * intros l. destruct (validate_each m items) as [rest|e'] eqn:Er.
        -- split; intros H.
           ++ inversion H; subst. constructor; [exact Ex|]. now apply IH1.
           ++ inversion H as [|? i' ? rest' Hi Hrest]; subst.
              rewrite Ex in Hi. inversion Hi; subst i'.
              apply IH1 in Hrest. inversion Hrest. reflexivity.
        -- split; intros H; [discriminate|].
           inversion H as [|? i' ? rest' Hi Hrest]; subst.
           apply IH1 in Hrest. discriminate.
      * intros H. inversion H as [? ? [e He] | ? ? Hrest]; subst.
        -- congruence.
        -- now rewrite (IH2 Hrest).
    + pose proof (model_validate_throws _ _ Ex) as ->. split.
      * intros l. split; intros H; [discriminate|].
        inversion H as [|? i' ? rest' Hi Hrest]; subst. congruence.
      * reflexivity.
Qed.

Lemma unwrap_list_items {RT : Runtime} m key body items w :
  lookup key body = Some (JList items) ->
  Operations.unwrap_list m key (JObj body) w = (validate_each m items, w).
Proof.
  intros H. unfold Operations.unwrap_list, bind, lift, dict_get.
  rewrite H. cbn. destruct (validate_each m items); reflexivity.
Qed.

Lemma unwrap_list_missing {RT : Runtime} m key body w :
  lookup key body = None ->
  Operations.unwrap_list m key (JObj body) w = (Returns [], w).
Proof.
  intros H. unfold Operations.unwrap_list, bind, lift, dict_get.
  rewrite H. reflexivity.
Qed.

Ltac run_listing :=
  unfold Operations.search_humans, Operations.list_bookings,
    Operations.list_bounties, Operations.get_bounty_applications,
    Operations.list_conversations, Operations.get_reviews, Operations._get;
  repeat apply conj; intros; cbv beta delta [query no_params pydict] in *;
    try (unfold bind at 1; cbv beta; rewrite sanitize_safe by assumption);
    unfold bind at 1; cbv beta;
    match goal with
    | H : _ = (Returns (JObj _), _) |- _ => rewrite H
    end.

(** X15. A listing operation whose response body is an object without the
    envelope key returns the empty list: unlike the single-entity
    operations it does not fall back on the body.  [get_reviews] returns the
    empty list likewise.  This holds whatever [_request] the class has,
    hence for both classes. *)
Theorem missing_list_key_gives_empty {RT : Runtime}
    (_request : client -> string -> string -> kwargs -> M json) (c : client) :
  (forall skill min_rate max_rate name limit offset body w w',
      _request c "GET" "/humans"
        (query (Operations.search_params skill min_rate max_rate name limit offset)) w
      = (Returns (JObj body), w') ->
      lookup "humans" body = None ->
      Operations.search_humans _request c skill min_rate max_rate name limit offset w
      = (Returns [], w')) /\
  (forall human_id agent_id status limit body w w',
      _request c "GET" "/bookings"
        (query (Operations.bookings_params human_id agent_id status limit)) w
      = (Returns (JObj body), w') ->
      lookup "bookings" body = None ->
      Operations.list_bookings _request c human_id agent_id status limit w
      = (Returns [], w')) /\
  (forall limit body w w',
      _request c "GET" "/bounties" (query [("limit", JInt limit)]) w
      = (Returns (JObj body), w') ->
      lookup "bounties" body = None ->
      Operations.list_bounties _request c limit w = (Returns [], w')) /\
  (forall bounty_id body w w',
      ~ unsafe_path_param bounty_id ->
      _request c "GET" ("/bounties/" ++ bounty_id ++ "/applications") no_params w
      = (Returns (JObj body), w') ->
      lookup "applications" body = None ->
      Operations.get_bounty_applications _request c bounty_id w = (Returns [], w')) /\
  (forall limit body w w',
      _request c "GET" "/conversations" (query [("limit", JInt limit)]) w
      = (Returns (JObj body), w') ->
      lookup "conversations" body = None ->
      Operations.list_conversations _request c limit w = (Returns [], w')) /\
  (forall human_id body w w',
      ~ unsafe_path_param human_id ->
      _request c "GET" ("/humans/" ++ human_id ++ "/reviews") no_params w
      = (Returns (JObj body), w') ->
      lookup "reviews" body = None ->
      Operations.get_reviews _request c human_id w = (Returns (JList []), w')).
Proof.
  run_listing; try (apply unwrap_list_missing; assumption).
  unfold lift, dict_get.
  match goal with H : lookup _ _ = None |- _ => rewrite H end. reflexivity.
Qed.

(** X16. A listing operation whose response body has a list under the
    envelope key returns the validated elements of that list, one per
    element and in the order of the server, and raises
    [pydantic.ValidationError] as a whole when one element is refused: there
    is no partial list.  This holds whatever [_request] the class has, hence
    for both classes. *)
Theorem listings_validate_in_order {RT : Runtime}
    (_request : client -> string -> string -> kwargs -> M json) (c : client) :
  (forall skill min_rate max_rate name limit offset body items w w',
      _request c "GET" "/humans"
        (query (Operations.search_params skill min_rate max_rate name limit offset)) w
      = (Returns (JObj body), w') ->
      lookup "humans" body = Some (JList items) ->
      validates_in_order Human items
        (fst (Operations.search_humans _request c skill min_rate max_rate name
                limit offset w))) /\
  (forall human_id agent_id status limit body items w w',
      _request c "GET" "/bookings"
        (query (Operations.bookings_params human_id agent_id status limit)) w
      = (Returns (JObj body), w') ->
      lookup "bookings" body = Some (JList items) ->
      validates_in_order Booking items
        (fst (Operations.list_bookings _request c human_id agent_id status limit w))) /\
  (forall limit body items w w',
      _request c "GET" "/bounties" (query [("limit", JInt limit)]) w
      = (Returns (JObj body), w') ->
      lookup "bounties" body = Some (JList items) ->
      validates_in_order Bounty items
        (fst (Operations.list_bounties _request c limit w))) /\
  (forall bounty_id body items w w',
      ~ unsafe_path_param bounty_id ->
      _request c "GET" ("/bounties/" ++ bounty_id ++ "/applications") no_params w
      = (Returns (JObj body), w') ->
      lookup "applications" body = Some (JList items) ->
      validates_in_order BountyApplication items
        (fst (Operations.get_bounty_applications _request c bounty_id w))) /\
  (forall limit body items w w',
      _request c "GET" "/conversations" (query [("limit", JInt limit)]) w
      = (Returns (JObj body), w') ->
      lookup "conversations" body = Some (JList items) ->
      validates_in_order Conversation items
        (fst (Operations.list_conversations _request c limit w))).
Proof.
  run_listing; erewrite unwrap_list_items by eassumption;
    apply validate_each_in_order.
Qed.

(** ** Bodies of the write operations *)

Lemma dump_fields_no_null (by_alias : bool) (inst : instance) (fs : list field) :
  Forall (fun f => fdump f = dump_plain) fs ->
  Forall (fun kv => snd kv <> JNull) (dump_fields by_alias true inst fs).
Proof.
  induction 1 as [|f fs Hf _ IH]; cbn; [constructor|].
  destruct (lookup (fname f) inst) as [v|]; [|exact IH].
  destruct (is_none v) eqn:E; cbn; [exact IH|].
  constructor; [|exact IH]. cbn. rewrite Hf. unfold dump_plain.
  destruct v; discriminate.
Qed.

Lemma dump_fields_keys_incl (exclude_none : bool) (inst : instance) (fs : list field) :
  incl (keys (dump_fields true exclude_none inst fs)) (map falias fs).
Proof.
  induction fs as [|f fs IH]; cbn; [apply incl_refl|].
  destruct (lookup (fname f) inst) as [v|]; [|now apply incl_tl].
  destruct (exclude_none && is_none v)%bool; cbn.
  - now apply incl_tl.
  - apply incl_cons; [now left | now apply incl_tl].
Qed.

Lemma post_then_unwrap_entity_world {RT : Runtime}
    (_request : client -> string -> string -> kwargs -> M json)
    c path body m key w :
  snd ((data <- Operations._post _request c path body ;;
        Operations.unwrap_entity m key data) w) =
  snd (Operations._post _request c path body w).
Proof.
  unfold bind at 1.
  destruct (Operations._post _request c path body w) as [[data|e] w'];
    [apply unwrap_entity_world | reflexivity].
Qed.

Lemma post_sends {RT : Runtime} c path body (P : request -> Prop) w :
  (forall tmo,
      P {| req_method := "POST"; req_url := base_url c ++ path;
           req_kwargs := {| kw_params := None; kw_json := body;
                            kw_timeout := tmo |} |}) ->
  Forall P (new_requests w (snd (Operations._post Client._request c path body w))) /\
  Forall P (new_requests w (snd (Operations._post AsyncClient._request c path body w))).
Proof.
  intros HP. unfold Operations._post.
  destruct (sync_new_requests c "POST" path
              {| kw_params := None; kw_json := body; kw_timeout := None |} w)
    as (k1 & E1 & _).
  destruct (async_new_requests c "POST" path
              {| kw_params := None; kw_json := body; kw_timeout := None |} w)
    as (k2 & E2 & _).
  rewrite E1, E2. split; apply Forall_repeat; apply HP.
Qed.

(** X17. [create_booking] and [create_bounty] never send an explicit
    [null]: whatever the [BookingCreate] or [BountyCreate] object holds,
    every request of the call carries a JSON object whose values are all
    different from [null] and whose keys are wire names of the model ([None]
    fields are left out of the body).  Both classes. *)
Theorem write_bodies_have_no_null {RT : Runtime} (c : client)
    (booking bounty : instance) (w : world) :
  (Forall (sends_object_without_null
             ["humanId"; "agentId"; "taskTitle"; "startTime"; "estimatedHours";
              "description"])
     (new_requests w (snd (Operations.create_booking Client._request c booking w))) /\
   Forall (sends_object_without_null
             ["humanId"; "agentId"; "taskTitle"; "startTime"; "estimatedHours";
              "description"])
     (new_requests w (snd (Operations.create_booking AsyncClient._request c booking w)))) /\
  (Forall (sends_object_without_null
             ["agentType"; "title"; "description"; "estimatedHours"; "priceType";
              "price"; "skills"; "location"])
     (new_requests w (snd (Operations.create_bounty Client._request c bounty w))) /\
   Forall (sends_object_without_null
             ["agentType"; "title"; "description"; "estimatedHours"; "priceType";
              "price"; "skills"; "location"])
     (new_requests w (snd (Operations.create_bounty AsyncClient._request c bounty w)))).
Proof.
  unfold Operations.create_booking, Operations.create_bounty.
  rewrite !post_then_unwrap_entity_world.
  split; apply post_sends; intros tmo; eexists;
    (split; [reflexivity|]); (split;
      [ apply dump_fields_no_null; cbn; repeat constructor
      | apply (dump_fields_keys_incl true) ]).
Qed.

(** ** Validation against a model *)

Lemma lookup_filter (p : string -> bool) (k : string) (d : pydict) :
  p k = true -> lookup k (filter (fun kv => p (fst kv)) d) = lookup k d.
Proof.
  intros Hk. induction d as [|[k' v] d IH]; [reflexivity|].
  cbn. destruct (p k') eqn:Hp; cbn.
  - now rewrite IH.
  - destruct (String.eqb_spec k k') as [->|]; [congruence | exact IH].
Qed.

Lemma find_input_known_part (m : model) (f : field) (kv : pydict) :
  In f (fields m) ->
  find_input (populate_by_name m) f (known_part m kv) =
  find_input (populate_by_name m) f kv.
Proof.
  intros Hf. unfold find_input, known_part.
  rewrite lookup_filter.
  - destruct (lookup (falias f) kv); [reflexivity|].
    destruct (populate_by_name m) eqn:Hp; [|reflexivity].
    apply lookup_filter. unfold known_key. apply existsb_exists.
    exists f. split; [exact Hf|]. rewrite Hp, String.eqb_refl.
    apply orb_true_r.
  - unfold known_key. apply existsb_exists.
    exists f. split; [exact Hf|]. now rewrite String.eqb_refl.
Qed.

Lemma validate_fields_ext (pbn : bool) (kv kv' : pydict) (fs : list field) :
  (forall f, In f fs -> find_input pbn f kv = find_input pbn f kv') ->
  validate_fields pbn kv fs = validate_fields pbn kv' fs.
Proof.
  induction fs as [|f fs IH]; intros H; [reflexivity|].
  cbn. rewrite (H f (or_introl eq_refl)), IH; [reflexivity|].
  intros g Hg. apply H. now right.
Qed.

Lemma model_validate_known_part (m : model) (kv : pydict) :
  model_validate m (JObj (known_part m kv)) = model_validate m (JObj kv).
Proof.
  unfold model_validate.
  rewrite (@validate_fields_ext _ (known_part m kv) kv); [reflexivity|].
  intros f Hf. now apply find_input_known_part.
Qed.

Lemma known_part_foreign (m : model) (kv : pydict) :
  (forall k, In k (keys kv) -> known_key m k = false) -> known_part m kv = [].
Proof.
  unfold known_part. induction kv as [|[k v] kv IH]; intros H; [reflexivity|].
  cbn. rewrite (H k (or_introl eq_refl)). apply IH.
  intros k' Hk'. apply H. now right.
Qed.

(** X19. An object that has none of the fields of the model is accepted by
    every response entity ([CryptoWallet], [Human], [Booking],
    [BountyApplication], [Bounty], [Message], [Conversation]), which comes
    out with all its defaults, and refused by the models that have a required
    field ([Skill], [BookingCreate], [BountyCreate]). *)
Theorem foreign_body_gives_defaults_or_refusal {RT : Runtime} (m : model)
    (payload : pydict) :
  (forall k, In k (keys payload) -> known_key m k = false) ->
  (In m [CryptoWallet; Human; Booking; BountyApplication; Bounty; Message;
         Conversation] ->
   model_validate m (JObj payload) = Returns (defaults m)) /\
  (In m [Skill; BookingCreate; BountyCreate] ->
   model_validate m (JObj payload) = Throws (Builtin ValidationError)).
Proof.
  intros Hforeign.
  rewrite <- model_validate_known_part, (known_part_foreign _ _ Hforeign).
  split; cbn [In]; intros H; repeat destruct H as [<- | H]; try contradiction;
    reflexivity.
Qed.

Lemma lookup_renamed (ren : string -> string) (k k' : string) (d : pydict) :
  (forall key, In key (keys d) ->
               String.eqb k' (ren key) = String.eqb k key) ->
  lookup k' (map (fun kv => (ren (fst kv), snd kv)) d) = lookup k d.
Proof.
  induction d as [|[key v] d IH]; intros H; [reflexivity|].
  cbn. rewrite (H key (or_introl eq_refl)), IH; [reflexivity|].
  intros key' Hk. apply H. now right.
Qed.

Lemma lookup_absent (k : string) (d : pydict) :
  (forall key, In key (keys d) -> String.eqb k key = false) ->
  lookup k d = None.
Proof.
  induction d as [|[key v] d IH]; intros H; [reflexivity|].
  cbn. rewrite (H key (or_introl eq_refl)). apply IH.
  intros key' Hk. apply H. now right.
Qed.

Lemma names_agree_facts (m : model) (g f : field) :
  table_consistent m = true -> In g (fields m) -> In f (fields m) ->
  String.eqb (fname f) (internal_name m (falias g)) =
    String.eqb (falias f) (falias g) /\
  (String.eqb (fname f) (falias f) = false ->
   String.eqb (falias f) (internal_name m (falias g)) = false /\
   String.eqb (fname f) (falias g) = false /\
   populate_by_name m = true).
Proof.
  intros Hm Hg Hf. unfold table_consistent in Hm.
  rewrite forallb_forall in Hm. specialize (Hm g Hg).
  rewrite forallb_forall in Hm. specialize (Hm f Hf).
  unfold names_agree in Hm.
  rewrite !andb_true_iff in Hm. destruct Hm as [[[HA HB] HC] Hc].
  apply Bool.eqb_prop in HA.
  rewrite (String.eqb_sym (fname f)), (String.eqb_sym (falias f) (falias g)).
  split; [exact HA|]. intros Hne.
  rewrite Hne, andb_false_r in HB. rewrite Hne in HC, Hc.
  rewrite orb_false_r in Hc.
  rewrite (String.eqb_sym (falias f)), (String.eqb_sym (fname f) (falias g)).
  destruct (String.eqb (internal_name m (falias g)) (falias f));
    destruct (String.eqb (falias g) (fname f)); cbn in *; auto; discriminate.
Qed.

Lemma find_input_to_internal (m : model) (wire : pydict) (f : field) :
  table_consistent m = true ->
  (forall k, In k (keys wire) -> In k (map falias (fields m))) ->
  In f (fields m) ->
  find_input (populate_by_name m) f (to_internal m wire) =
  find_input (populate_by_name m) f wire.
Proof.
  intros Hm Hkeys Hf.
  assert (forall key, In key (keys wire) ->
                      exists g, In g (fields m) /\ falias g = key) as Hg.
  { intros key Hk. apply Hkeys in Hk. apply in_map_iff in Hk.
    destruct Hk as (g & <- & Hg). eauto. }
  assert (lookup (fname f) (to_internal m wire) = lookup (falias f) wire) as Hname.
  { apply lookup_renamed. intros key Hk.
    destruct (Hg key Hk) as (g & Hgin & <-).
    apply (names_agree_facts m g f Hm Hgin Hf). }
  unfold find_input.
  destruct (String.eqb (fname f) (falias f)) eqn:Hsame.
  - apply String.eqb_eq in Hsame. rewrite <- Hsame in *. rewrite Hname.
    reflexivity.
  - assert (lookup (falias f) (to_internal m wire) = None) as Ha.
    { apply lookup_absent. intros key' Hk'.
      unfold keys, to_internal in Hk'. rewrite map_map in Hk'.
      apply in_map_iff in Hk'. destruct Hk' as ([key v] & <- & Hin).
      cbn [fst]. destruct (Hg key) as (g & Hgin & <-).
      { apply in_map_iff. exists (key, v). auto. }
      apply (names_agree_facts m g f Hm Hgin Hf). exact Hsame. }
    assert (lookup (fname f) wire = None) as Hn.
    { apply lookup_absent. intros key Hk.
      destruct (Hg key Hk) as (g & Hgin & <-).
      apply (names_agree_facts m g f Hm Hgin Hf). exact Hsame. }
    assert (populate_by_name m = true) as Hp.
    { destruct wire as [|[key v] wire'].
      - destruct (fields m) as [|g0 fs] eqn:E; [contradiction|].
        apply (names_agree_facts m f f Hm); rewrite ?E; auto.
      - destruct (Hg key (or_introl eq_refl)) as (g & Hgin & _).
        apply (names_agree_facts m g f Hm Hgin Hf). exact Hsame. }
    rewrite Ha, Hp, Hname, Hn. destruct (lookup (falias f) wire); reflexivity.
Qed.

Lemma models_consistent {RT : Runtime} (m : model) :
  In m all_models -> table_consistent m = true.
Proof.
  unfold all_models. cbn [In].
  intros H; repeat destruct H as [<- | H]; try contradiction; reflexivity.
Qed.

(** X20. The models can be populated by attribute name as well as by wire
    name: for every model of models.py and every payload keyed by wire names
    of the model, constructing the entity from the payload re-keyed by the
    attribute names gives the same instance, or the same refusal, as
    validating the payload itself. *)
Theorem construct_by_name_or_by_alias {RT : Runtime} (m : model) (wire : pydict) :
  In m all_models ->
  (forall k, In k (keys wire) -> In k (map falias (fields m))) ->
  model_validate m (JObj (to_internal m wire)) = model_validate m (JObj wire).
Proof.
  intros Hm Hkeys. unfold model_validate.
  rewrite (@validate_fields_ext _ (to_internal m wire) wire); [reflexivity|].
  intros f Hf. apply find_input_to_internal;
    [apply models_consistent; exact Hm | exact Hkeys | exact Hf].
Qed.

(** ** [Human.summary] *)

Lemma append_empty_r (s : string) : (s ++ "")%string = s.
Proof. induction s as [|ch s IH]; cbn; [reflexivity | now rewrite IH]. Qed.

Lemma concat_cons_prefix (sep head : string) (rest : list string) :
  String.prefix head (String.concat sep (head :: rest)) = true.
Proof.
  apply prefix_append. destruct rest as [|x rest]; cbn [String.concat].
  - exists "". now rewrite append_empty_r.
  - eexists. reflexivity.
Qed.

(** X21. A summary starts with [name (id)] whatever else the profile has,
    and is just that when the profile has nothing else to show: the
    location is [None] or empty, the rate and the rating are [None] or zero,
    and there is no skill. *)
Theorem summary_starts_with_name_and_id (format_float format_1f : float -> string)
    (self : human_attrs) :
  String.prefix (h_name self ++ " (" ++ h_id self ++ ")")
    (summary format_float format_1f self) = true /\
  (bare self ->
   summary format_float format_1f self = h_name self ++ " (" ++ h_id self ++ ")").
Proof.
  split.
  - unfold summary.
    destruct (h_location self) as [l|]; [destruct (nonempty l)|];
      (destruct (h_rate self) as [r|]; [destruct (truthy_float (Some r))|]);
      destruct (h_skills self);
      (destruct (h_rating self) as [g|]; [destruct (truthy_float (Some g))|]);
      cbn [app]; apply concat_cons_prefix.
  - intros (Hl & Hr & Hs & Hg). unfold summary. rewrite Hs.
    destruct (h_location self) as [l|]; cbn in Hl; rewrite ?Hl;
      (destruct (h_rate self) as [r|]; rewrite ?Hr);
      (destruct (h_rating self) as [g|]; rewrite ?Hg); reflexivity.
Qed.

(** X22. A summary shows the first five skills only: the skills after the
    fifth have no part in it. *)
Theorem summary_shows_five_skills (format_float format_1f : float -> string)
    (self : human_attrs) :
  summary format_float format_1f self =
  summary format_float format_1f (with_skills self (firstn 5 (h_skills self))).
Proof.
  unfold summary, with_skills. cbn [h_id h_name h_location h_rate h_skills h_rating].
  destruct (h_skills self) as [|s skills]; [reflexivity|].
  change (firstn 5 (s :: skills)) with (s :: firstn 4 skills).
  cbv beta iota zeta.
  change (firstn 5 (s :: firstn 4 skills))
    with (s :: firstn 4 (firstn 4 skills)).
  rewrite firstn_firstn. reflexivity.
Qed.

(** ** Methods, paths and bodies of the operations *)

Lemma new_requests_none (w : world) : new_requests w w = [].
Proof. unfold new_requests. apply skipn_all. Qed.

(** A continuation that leaves the world alone leaves the world of what
    comes before it. *)
Lemma bind_world {A B : Type} (m : M A) (k : A -> M B) (w : world) :
  (forall a w', snd (k a w') = w') ->
  snd ((x <- m ;; k x) w) = snd (m w).
Proof.
  intros Hk. unfold bind. destruct (m w) as [[a|e] w']; [apply Hk | reflexivity].
Qed.

(** The requests of one call of either executor. *)
Lemma executor_requests {RT : Runtime}
    (exec : client -> string -> string -> kwargs -> M json)
    (c : client) (method path : string) (kw : kwargs) (w : world) :
  In exec [Client._request; AsyncClient._request] ->
  Forall (fun r => req_method r = method /\
                   req_url r = (base_url c ++ path)%string /\
                   kw_params (req_kwargs r) = kw_params kw /\
                   kw_json (req_kwargs r) = kw_json kw)
    (new_requests w (snd (exec c method path kw w))).
Proof.
  intros [<-|[<-|[]]].
  - destruct (sync_new_requests c method path kw w) as (k & E & _).
    rewrite E. apply Forall_repeat. cbn. repeat split.
  - destruct (async_new_requests c method path kw w) as (k & E & _).
    rewrite E. apply Forall_repeat. cbn. repeat split.
Qed.

Lemma lift_world {A : Type} (r : py_result A) (w : world) : snd (lift r w) = w.
Proof. reflexivity. Qed.

Lemma list_skills_rest_world {RT : Runtime} (data : json) (w : world) :
  snd ((raw <- lift (dict_get data "skills" data) ;;
        first_is_str <- (if truthy raw
                         then x <- lift (index0 raw) ;; ret (isinstance_str x)
                         else ret false) ;;
        items <- lift (iterate raw) ;;
        if first_is_str
        then lift (validate_each Skill (map (fun s => JObj [("name", s)]) items))
        else lift (validate_each Skill items)) w) = w.
Proof.
  unfold bind, lift, ret.
  destruct (dict_get data "skills" data) as [raw|]; [|reflexivity].
  destruct (truthy raw).
  - destruct (index0 raw) as [x|]; [|reflexivity].
    destruct (iterate raw); [|reflexivity].
    destruct (isinstance_str x); reflexivity.
  - destruct (iterate raw); reflexivity.
Qed.

Ltac after_sanitizer :=
  repeat (unfold bind at 1; cbv beta;
          match goal with
          | |- context [_sanitize_path_param ?v ?w] =>
              let E := fresh "E" in
              destruct (sanitize_decides v w) as [E | E]; rewrite E;
              [cbn [snd]; rewrite new_requests_none; constructor |]
          end).

Ltac by_executor H :=
  eapply Forall_impl; [|apply executor_requests; exact H];
  cbn; intros ? (? & ? & ? & ?); auto.

(** X23. A read operation only reads: every request a call of
    [search_humans], [get_human], [list_skills], [get_reviews],
    [get_booking], [list_bookings], [get_bounty], [list_bounties],
    [get_bounty_applications], [get_conversation] or [list_conversations]
    issues, retries included, is a [GET] of the path of the resource under
    [base_url], with the identifier as given, and carries no JSON body.
    Both classes. *)
Theorem read_operations_only_get {RT : Runtime}
    (exec : client -> string -> string -> kwargs -> M json)
    (c : client) (w : world) :
  In exec [Client._request; AsyncClient._request] ->
  (forall skill min_rate max_rate name limit offset,
      only_gets c "/humans" w
        (Operations.search_humans exec c skill min_rate max_rate name limit offset w)) /\
  (forall human_id,
      only_gets c ("/humans/" ++ human_id) w (Operations.get_human exec c human_id w)) /\
  only_gets c "/skills" w (Operations.list_skills exec c w) /\
  (forall human_id,
      only_gets c ("/humans/" ++ human_id ++ "/reviews") w
        (Operations.get_reviews exec c human_id w)) /\
  (forall booking_id,
      only_gets c ("/bookings/" ++ booking_id) w
        (Operations.get_booking exec c booking_id w)) /\
  (forall human_id agent_id status limit,
      only_gets c "/bookings" w
        (Operations.list_bookings exec c human_id agent_id status limit w)) /\
  (forall bounty_id,
      only_gets c ("/bounties/" ++ bounty_id) w
        (Operations.get_bounty exec c bounty_id w)) /\
  (forall limit, only_gets c "/bounties" w (Operations.list_bounties exec c limit w)) /\
  (forall bounty_id,
      only_gets c ("/bounties/" ++ bounty_id ++ "/applications") w
        (Operations.get_bounty_applications exec c bounty_id w)) /\
  (forall conversation_id,
      only_gets c ("/conversations/" ++ conversation_id) w
        (Operations.get_conversation exec c conversation_id w)) /\
  (forall limit,
      only_gets c "/conversations" w (Operations.list_conversations exec c limit w)).
Proof.
  intros Hexec.
  unfold only_gets, Operations.search_humans, Operations.get_human,
    Operations.list_skills, Operations.get_reviews, Operations.get_booking,
    Operations.list_bookings, Operations.get_bounty, Operations.list_bounties,
    Operations.get_bounty_applications, Operations.get_conversation,
    Operations.list_conversations.
  repeat apply conj; intros; try after_sanitizer;
    (rewrite bind_world
       by (intros; first [ apply unwrap_list_world | apply unwrap_entity_world
                         | apply list_skills_rest_world | apply lift_world ]));
    unfold Operations._get; by_executor Hexec.
Qed.

Lemma executor_requests_some {RT : Runtime}
    (exec : client -> string -> string -> kwargs -> M json)
    (c : client) (method path : string) (kw : kwargs) (w : world) :
  In exec [Client._request; AsyncClient._request] ->
  0 <= max_retries c ->
  new_requests w (snd (exec c method path kw w)) <> [].
Proof.
  intros [<-|[<-|[]]] Hmax.
  - destruct (sync_new_requests c method path kw w) as (k & E & P).
    rewrite E. specialize (P Hmax). destruct k; [lia | discriminate].
  - destruct (async_new_requests c method path kw w) as (k & E & P).
    rewrite E. specialize (P Hmax). destruct k; [lia | discriminate].
Qed.

Ltac sanitizer_passes :=
  repeat (unfold bind at 1; cbv beta;
          match goal with
          | H : ~ unsafe_path_param ?v |- context [_sanitize_path_param ?v ?w] =>
              rewrite (@sanitize_safe _ v w H)
          end).

(** X24. A write operation sends what it is given: every request a call
    issues, retries included, has the method and the path of the operation
    under [base_url], no query, and the same JSON body, and with a retry
    count of 0 or more there is at least one (for an identifier the
    sanitizer lets pass).  [accept_application] posts without a body,
    [update_bounty] patches with the updates as given, [start_conversation]
    posts the four fields of the conversation with [human_id] unchecked,
    [send_message] posts the message alone; the two [create_] operations
    post the serialized object.  Both classes. *)
Theorem write_operations_send_given_body {RT : Runtime}
    (exec : client -> string -> string -> kwargs -> M json)
    (c : client) (w : world) :
  In exec [Client._request; AsyncClient._request] ->
  (forall booking,
      sends c "POST" "/bookings"
        (Some (JObj (model_dump BookingCreate true true booking))) w
        (Operations.create_booking exec c booking w)) /\
  (forall bounty,
      sends c "POST" "/bounties"
        (Some (JObj (model_dump BountyCreate true true bounty))) w
        (Operations.create_bounty exec c bounty w)) /\
  (forall bounty_id application_id,
      ~ unsafe_path_param bounty_id -> ~ unsafe_path_param application_id ->
      sends c "POST"
        ("/bounties/" ++ bounty_id ++ "/applications/" ++ application_id ++ "/accept")
        None w
        (Operations.accept_application exec c bounty_id application_id w)) /\
  (forall bounty_id updates,
      ~ unsafe_path_param bounty_id ->
      sends c "PATCH" ("/bounties/" ++ bounty_id) (Some (JObj updates)) w
        (Operations.update_bounty exec c bounty_id updates w)) /\
  (forall human_id subject message agent_type,
      sends c "POST" "/conversations"
        (Some (JObj [("humanId", JStr human_id); ("agentType", JStr agent_type);
                     ("subject", JStr subject); ("message", JStr message)])) w
        (Operations.start_conversation exec c human_id subject message agent_type w)) /\
  (forall conversation_id message,
      ~ unsafe_path_param conversation_id ->
      sends c "POST" ("/conversations/" ++ conversation_id ++ "/messages")
        (Some (JObj [("message", JStr message)])) w
        (Operations.send_message exec c conversation_id message w)).
Proof.
  intros Hexec.
  unfold sends, only_sends, Operations.create_booking, Operations.create_bounty,
    Operations.accept_application, Operations.update_bounty,
    Operations.start_conversation, Operations.send_message.
  repeat apply conj; intros; (split; [|intros Hmax]);
    try sanitizer_passes;
    try (rewrite bind_world by (intros; apply unwrap_entity_world));
    unfold Operations._post, Operations._patch;
    first [ apply executor_requests_some; assumption
          | by_executor Hexec ].
Qed.

(** * The theorems at work

    Concrete runs, on the sample runtime. *)

#[local] Existing Instance Sample.runtime.
Set Warnings "-inexact-float".

(** [get_human("../etc/passwd")] is refused without a request. *)
Lemma unsafe_path_param_refused_witness :
  unsafe_path_param "../etc/passwd" /\
  Operations.get_human Client._request
    Sample.default_client "../etc/passwd" (Sample.fresh (Sample.script [])) =
  (Throws (RentAHumanError (JStr "Invalid path parameter: '../etc/passwd'") None),
   Sample.fresh (Sample.script [])).
Proof.
  assert (unsafe_path_param "../etc/passwd") as H.
  { right. left. exists "..", "etc/passwd". reflexivity. }
  split; [exact H|].
  exact (proj1 (@unsafe_path_param_refused Sample.runtime (@Client._request Sample.runtime)
                  Sample.default_client "../etc/passwd"
                  (Sample.fresh (Sample.script [])) H)).
Defined.




(** A refused connection on the first of four attempts: the loop sleeps
    0.5 s and goes on with the second attempt. *)
Lemma transport_failure_backoff_witness :
  Client.request_loop Sample.default_client
    Sample.search_request (range 0 4) (Sample.fresh (Sample.script [])) =
  Client.request_loop Sample.default_client
    Sample.search_request (range 1 4)
    (record_sleep 0.5
       (record_request Sample.search_request (Sample.fresh (Sample.script [])))).
Proof.
  exact (proj1 (@transport_failure_backoff Sample.runtime Sample.default_client
                  Sample.search_request 0 (Sample.fresh (Sample.script []))
                  "Connection refused"
                  (conj (Z.le_refl 0) (Zle_0_pos 3))
                  (failure_of_call "Connection refused"))).
Defined.


(** A [Booking] built from two of its fields is serialized with all eight
    wire names. *)
Lemma round_trip_keys_witness :
  keys [("id", JStr "booking_001"); ("humanId", JStr ""); ("agentId", JStr "");
        ("taskTitle", JStr ""); ("status", JStr "pending"); ("startTime", JNull);
        ("estimatedHours", JNull); ("createdAt", JNull)] =
  map falias (fields Booking).
Proof.
  refine (proj1 (@round_trip_keys Sample.runtime Booking Sample.partial_booking
                   _ _ eq_refl)).
  cbn. auto 10.
Defined.






(** C7, the claim as stated, fails: a [Booking] built from a payload with
    the keys [id] and [status] is serialized with eight keys, and with five
    when [None] values are left out; neither is the payload's two. *)
Lemma round_trip_adds_keys :
  keys Sample.partial_booking = ["id"; "status"] /\
  round_trip Booking false Sample.partial_booking =
    Returns [("id", JStr "booking_001"); ("humanId", JStr ""); ("agentId", JStr "");
             ("taskTitle", JStr ""); ("status", JStr "pending");
             ("startTime", JNull); ("estimatedHours", JNull); ("createdAt", JNull)] /\
  round_trip Booking true Sample.partial_booking =
    Returns [("id", JStr "booking_001"); ("humanId", JStr ""); ("agentId", JStr "");
             ("taskTitle", JStr ""); ("status", JStr "pending")].
Proof. repeat split; reflexivity. Qed.

(** ** Runs of the test suite *)

(** [test_rate_limit_retries]: a 429 with [Retry-After: 0.01], then a 200;
    the call returns the second body after two requests and one sleep. *)
Example rate_limit_then_success :
  fst (Client._request Sample.default_client "GET" "/humans" no_params
         Sample.busy_then_ok) = Returns Sample.humans_body /\
  slept (snd (Client._request Sample.default_client "GET" "/humans" no_params
                Sample.busy_then_ok)) = [0.01%float] /\
  issued Sample.busy_then_ok
    (snd (Client._request Sample.default_client "GET" "/humans" no_params
            Sample.busy_then_ok)) = 2%nat.
Proof. repeat split; reflexivity. Qed.

(** With no answer at all the blocking class gives up after four requests
    and the sleeps 0.5, 1.0 and 1.5. *)
Example backoff_durations :
  fst (Client._request Sample.default_client "GET" "/humans" no_params
         (Sample.fresh (Sample.script []))) =
  Throws (RentAHumanError (JStr "Request failed: Connection refused") None) /\
  slept (snd (Client._request Sample.default_client "GET" "/humans" no_params
                (Sample.fresh (Sample.script [])))) = [0.5; 1; 1.5]%float /\
  issued (Sample.fresh (Sample.script []))
    (snd (Client._request Sample.default_client "GET" "/humans" no_params
            (Sample.fresh (Sample.script [])))) = 4%nat.
Proof. repeat split; reflexivity. Qed.

(** [search_humans(limit=10000)] sends [limit=500], [search_humans(limit=0)]
    sends [limit=1]. *)
Example search_limit_examples :
  map (fun r => kw_params (req_kwargs r))
    (sent (snd (Operations.search_humans Client._request Sample.impatient_client
                  None None None None 10000 0 (Sample.fresh (Sample.script [])))))
  = [Some [("limit", JInt 500); ("offset", JInt 0)]] /\
  map (fun r => kw_params (req_kwargs r))
    (sent (snd (Operations.search_humans AsyncClient._request Sample.impatient_client
                  None None None None 0 0 (Sample.fresh (Sample.script [])))))
  = [Some [("limit", JInt 1); ("offset", JInt 0)]].
Proof. split; reflexivity. Qed.

(** A body that is a bare list has no [get]: [list_skills] raises
    [AttributeError]; and an error status with a body that is no JSON object
    does not become a [RentAHumanError]. *)
Example bodies_outside_the_contract :
  fst (Operations.list_skills Client._request Sample.default_client
         (Sample.fresh (Sample.script [Sample.ok (JList [JStr "Photography"])])))
  = Throws (Builtin AttributeError) /\
  fst (Client._request Sample.impatient_client "GET" "/humans" no_params
         (Sample.fresh (Sample.script
            [Returns {| status_code := 502; headers := []; content := "[]";
                        reason := Some "Bad Gateway";
                        resp_json := Returns (JList []) |}])))
  = Throws (Builtin AttributeError).
Proof. split; reflexivity. Qed.

(** The same exchange need not end alike in the two classes: a 200 with an
    HTML page is retried by the blocking class, whose [json()] raises from
    the transport's class, and ends the call of the other with
    [ValueError]. *)
Example html_page_per_library :
  fst (Client._request Sample.default_client "GET" "/humans" no_params
         (Scenarios.html_page 200 Scenarios.as_requests)) =
    Throws (RentAHumanError (JStr "Request failed: Expecting value") None) /\
  issued (Scenarios.html_page 200 Scenarios.as_requests)
    (snd (Client._request Sample.default_client "GET" "/humans" no_params
            (Scenarios.html_page 200 Scenarios.as_requests))) = 4%nat /\
  fst (AsyncClient._request Sample.default_client "GET" "/humans" no_params
         (Scenarios.html_page 200 Scenarios.as_httpx)) =
    Throws (Builtin ValueError) /\
  issued (Scenarios.html_page 200 Scenarios.as_httpx)
    (snd (AsyncClient._request Sample.default_client "GET" "/humans" no_params
            (Scenarios.html_page 200 Scenarios.as_httpx))) = 1%nat.
Proof. repeat split; reflexivity. Qed.

(** What [time.sleep] does with the values [float] reads from a header. *)
Example sleeps_on_odd_durations :
  time_sleep_check (-1) = Some ValueError /\
  time_sleep_check nan = Some ValueError /\
  time_sleep_check infinity = Some OverflowError /\
  time_sleep_check neg_infinity = Some OverflowError /\
  time_sleep_check (-0) = None /\
  asyncio_sleep_check (-1) = None /\
  asyncio_sleep_check neg_infinity = None /\
  sleepable 0 = true /\ sleepable 1.5 = true /\ sleepable 1e10 = false.
Proof. repeat split; reflexivity. Qed.

(** [get_human] reads the same profile from [{"human": {...}}] and from the
    bare object. *)
Example get_human_either_shape :
  fst (Operations.get_human Client._request Sample.default_client "human_test_001"
         (Sample.fresh (Sample.script
            [Sample.ok (JObj [("success", JBool true);
                              ("human", JObj [("id", JStr "human_test_001");
                                              ("name", JStr "Alice");
                                              ("completedTasks", JInt 127)])])])))
  = fst (Operations.get_human Client._request Sample.default_client "human_test_001"
           (Sample.fresh (Sample.script
              [Sample.ok (JObj [("id", JStr "human_test_001");
                                ("name", JStr "Alice");
                                ("completedTasks", JInt 127)])]))) /\
  fst (Operations.get_human Client._request Sample.default_client "human_test_001"
         (Sample.fresh (Sample.script
            [Sample.ok (JObj [("id", JStr "human_test_001");
                              ("name", JStr "Alice");
                              ("completedTasks", JInt 127)])])))
  = Returns [("id", JStr "human_test_001"); ("name", JStr "Alice");
             ("location", JNull); ("rate", JNull); ("skills", JList []);
             ("bio", JNull); ("availability", JNull); ("crypto_wallets", JList []);
             ("rating", JNull); ("completed_tasks", JInt 127); ("created_at", JNull)].
Proof. split; reflexivity. Qed.

(** [list_skills] on bare strings and on objects. *)
Example list_skills_either_shape :
  fst (Operations.list_skills AsyncClient._request Sample.default_client
         (Sample.fresh (Sample.script
            [Sample.ok (JObj [("skills", JList [JStr "Packages"; JStr "Photography"])])])))
  = Returns [skill_of "Packages" None; skill_of "Photography" None] /\
  fst (Operations.list_skills AsyncClient._request Sample.default_client
         (Sample.fresh (Sample.script
            [Sample.ok (JObj [("skills",
                               JList [JObj [("name", JStr "Packages");
                                            ("category", JStr "Errands")];
                                      JObj [("name", JStr "Photography")]])])])))
  = Returns [skill_of "Packages" (Some "Errands"); skill_of "Photography" None].
Proof. split; reflexivity. Qed.

(** The message of an error status: the ["error"] entry, else the reason
    phrase, else ["HTTP <code>"]. *)
Example error_message_cascade :
  fst (Client._request Sample.impatient_client "GET" "/humans" no_params
         (Sample.fresh (Sample.script
            [Returns {| status_code := 503; headers := []; content := "";
                        reason := Some "Service Unavailable";
                        resp_json := Throws (TransportError "Expecting value") |}])))
  = Throws (RentAHumanError (JStr "Service Unavailable") (Some 503)) /\
  fst (AsyncClient._request Sample.impatient_client "GET" "/humans" no_params
         (Sample.fresh (Sample.script
            [Returns {| status_code := 503; headers := []; content := "";
                        reason := Some "";
                        resp_json := Throws (TransportError "Expecting value") |}])))
  = Throws (RentAHumanError (JStr "HTTP 503") (Some 503)).
Proof. split; reflexivity. Qed.

(** ** Further properties at work *)

(** A 200 on the first of four attempts ends the call with its body. *)
Lemma success_returns_body_witness :
  Client.request_loop Sample.default_client Sample.search_request [0; 1; 2; 3]
    (Sample.fresh (Sample.script [Sample.ok Sample.humans_body])) =
  (Returns Sample.humans_body,
   record_request Sample.search_request
     (Sample.fresh (Sample.script [Sample.ok Sample.humans_body]))).
Proof.
  refine (proj1 (@success_returns_body Sample.runtime Sample.default_client
                   Sample.search_request 0 [1; 2; 3]
                   (Sample.fresh (Sample.script [Sample.ok Sample.humans_body]))
                   (Scenarios.ok_response Sample.humans_body) Sample.humans_body
                   eq_refl _ eq_refl)).
  reflexivity.
Defined.

(** A 200 with an HTML body: the [ValueError] of [json()] leaves the
    non-blocking class at the first attempt. *)
Lemma uncaught_exception_ends_call_witness :
  AsyncClient.request_loop Sample.default_client Sample.search_request [0; 1; 2; 3]
    (Sample.fresh (Sample.script [Returns Scenarios.garbled])) =
  (Throws (Builtin ValueError),
   record_request Sample.search_request
     (Sample.fresh (Sample.script [Returns Scenarios.garbled]))).
Proof.
  refine (proj2 (@uncaught_exception_ends_call Sample.runtime Sample.default_client
                   Sample.search_request 0 [1; 2; 3]
                   (Sample.fresh (Sample.script [Returns Scenarios.garbled]))
                   (Builtin ValueError) _)).
  apply escapes_body.
  - discriminate.
  - left. reflexivity.
  - reflexivity.
  - exact I.
Defined.

(** A 429 asking for 0.01 s, then a 200: two requests, one sleep of 0.01 s,
    and the body of the 200. *)
Lemma retries_then_success_witness :
  Client._request Sample.default_client "GET" "/humans" no_params
    Sample.busy_then_ok =
  (Returns Sample.humans_body,
   after_retries (Client.build_request Sample.default_client "GET" "/humans" no_params)
     2 [0.01%float] Sample.busy_then_ok).
Proof.
  refine (proj1 (@retries_then_success Sample.runtime Sample.default_client
                   "GET" "/humans" no_params Sample.busy_then_ok [0.01%float]
                   (Scenarios.ok_response Sample.humans_body) Sample.humans_body
                   _ _ eq_refl _ eq_refl)).
  - cbn. lia.
  - intros i Hi. destruct i as [|i]; [|cbn in Hi; lia].
    apply (@again_rate_limited Sample.runtime 0 (Sample.rate_limited "0.01") 0.01%float);
      reflexivity.
  - reflexivity.
Defined.

(** Four attempts that all fail, the last with a 429 asking for 2 s: four
    requests, three sleeps, and [RateLimitError(2.0)]. *)
Lemma exhausted_by_rate_limit_witness :
  Client._request Sample.default_client "GET" "/humans" no_params
    Scenarios.always_busy =
  (Throws (RateLimitError 2),
   after_retries (Client.build_request Sample.default_client "GET" "/humans" no_params)
     4 [0.01%float; 1%float; 1%float] Scenarios.always_busy).
Proof.
  refine (proj1 (@exhausted_by_rate_limit Sample.runtime Sample.default_client
                   "GET" "/humans" no_params Scenarios.always_busy
                   [0.01%float; 1%float; 1%float]
                   (Sample.rate_limited "2") 2%float
                   eq_refl _ eq_refl eq_refl eq_refl)).
  intros i Hi. destruct i as [|[|[|i]]]; [| | |cbn in Hi; lia].
  - apply (@again_rate_limited Sample.runtime 0 (Sample.rate_limited "0.01") 0.01%float);
      reflexivity.
  - apply (@again_failure Sample.runtime 1 _ "Read timed out"), failure_of_call.
  - apply (@again_rate_limited Sample.runtime 2 Scenarios.unspecified_wait 1%float);
      reflexivity.
Defined.

(** A server that cannot be reached: four requests, sleeps of 0.5, 1.0 and
    1.5 s, and the text of the last failure. *)
Lemma exhausted_by_transport_failure_witness :
  Client._request Sample.default_client "GET" "/humans" no_params
    Scenarios.unreachable =
  (Throws (RentAHumanError (JStr "Request failed: Connection refused") None),
   after_retries (Client.build_request Sample.default_client "GET" "/humans" no_params)
     4 [0.5%float; 1%float; 1.5%float] Scenarios.unreachable).
Proof.
  refine (proj1 (@exhausted_by_transport_failure Sample.runtime Sample.default_client
                   "GET" "/humans" no_params Scenarios.unreachable
                   [0.5%float; 1%float; 1.5%float] "Connection refused"
                   eq_refl _ (failure_of_call "Connection refused"))).
  intros i Hi. destruct i as [|[|[|i]]]; [| | |cbn in Hi; lia].
  - apply (@again_failure Sample.runtime 0 _ "Connection refused"), failure_of_call.
  - apply (@again_failure Sample.runtime 1 _ "Connection refused"), failure_of_call.
  - apply (@again_failure Sample.runtime 2 _ "Connection refused"), failure_of_call.
Defined.


(** [max_retries=-1]: no request at all. *)
Lemma negative_retries_no_request_witness :
  Client._request Scenarios.negative_client "GET" "/humans" no_params
    Scenarios.unreachable =
  (Throws (RentAHumanError (JStr "Request failed after -1 retries") None),
   Scenarios.unreachable).
Proof.
  refine (proj1 (@negative_retries_no_request Sample.runtime
                   Scenarios.negative_client "GET" "/humans" no_params
                   Scenarios.unreachable _)).
  cbn. lia.
Defined.

(** The body returned after a 429 and a 200 is the body of the 200. *)
Lemma returns_only_success_body_witness :
  exists resp,
    last_outcome (snd (Client._request Sample.default_client "GET" "/humans"
                         no_params Sample.busy_then_ok)) = Returns resp /\
    status_code resp < 400 /\
    resp_json resp = Returns Sample.humans_body.
Proof.
  refine (proj1 (@returns_only_success_body Sample.runtime Sample.default_client
                   "GET" "/humans" no_params Sample.busy_then_ok
                   Sample.humans_body _)).
  reflexivity.
Defined.

(** The error raised for a 404 carries 404. *)
Lemma error_status_is_response_status_witness :
  exists resp,
    last_outcome
      (snd (Client._request Sample.default_client "GET" "/humans/nobody" no_params
              (Sample.fresh (Sample.script [Returns Sample.not_found])))) =
      Returns resp /\
    status_code resp = 404 /\ 400 <= 404.
Proof.
  refine (proj1 (@error_status_is_response_status Sample.runtime
                   Sample.default_client "GET" "/humans/nobody" no_params
                   (Sample.fresh (Sample.script [Returns Sample.not_found]))
                   (RentAHumanError (JStr "Human not found") (Some 404)) 404
                   _ _ eq_refl)).
  - intros k. destruct k as [|[|k]]; exact I.
  - reflexivity.
Defined.

(** A status page is no booking: [Booking] comes out with its defaults. *)
Lemma foreign_body_gives_defaults_or_refusal_witness :
  model_validate Booking (JObj Scenarios.status_page) = Returns (defaults Booking).
Proof.
  refine (proj1 (@foreign_body_gives_defaults_or_refusal Sample.runtime Booking
                   Scenarios.status_page _) _).
  - intros k [<-|[<-|[]]]; reflexivity.
  - cbn. auto 10.
Defined.

(** A booking keyed by attribute names is the booking keyed by wire names. *)
Lemma construct_by_name_or_by_alias_witness :
  model_validate Booking (JObj (to_internal Booking Scenarios.wire_booking)) =
  model_validate Booking (JObj Scenarios.wire_booking).
Proof.
  refine (@construct_by_name_or_by_alias Sample.runtime Booking
            Scenarios.wire_booking _ _).
  - cbn. auto 10.
  - intros k [<-|[<-|[<-|[<-|[]]]]]; cbn; auto 10.
Defined.

(** [get_human("human_042")] on a busy server: two requests, both a [GET]
    of [/humans/human_042]. *)
Lemma read_operations_only_get_witness :
  only_gets Sample.default_client "/humans/human_042" Sample.busy_then_ok
    (Operations.get_human Client._request Sample.default_client "human_042"
       Sample.busy_then_ok).
Proof.
  refine (proj1 (proj2 (@read_operations_only_get Sample.runtime
                          (@Client._request Sample.runtime)
                          Sample.default_client Sample.busy_then_ok _))
            "human_042").
  left. reflexivity.
Defined.

(** [start_conversation] through the non-blocking class on a server that
    cannot be reached: four requests with the same four fields. *)
Lemma write_operations_send_given_body_witness :
  sends Sample.default_client "POST" "/conversations"
    (Some (JObj [("humanId", JStr "human_042"); ("agentType", JStr "rentahuman-py");
                 ("subject", JStr "Hello"); ("message", JStr "Are you free?")]))
    Scenarios.unreachable
    (Operations.start_conversation AsyncClient._request Sample.default_client
       "human_042" "Hello" "Are you free?" "rentahuman-py" Scenarios.unreachable).
Proof.
  refine (proj1 (proj2 (proj2 (proj2 (proj2
            (@write_operations_send_given_body Sample.runtime
               (@AsyncClient._request Sample.runtime)
               Sample.default_client Scenarios.unreachable _)))))
            "human_042" "Hello" "Are you free?" "rentahuman-py").
  right. left. reflexivity.
Defined.
